(** * Agentic Product Assistant: a shallow embedding and its properties

    The development follows the repository file by file:

    - [Py]                 the fragment of the Python runtime the code relies on
                           (strings, integers, floats, dynamic values, exceptions);
    - [Product], [Order],
      [StoredOrder]        data_models.py;
    - [OrderProcessor]     order_processor.py;
    - [SarvamLLMService]   sarvam_llm_service.py (the retry loop);
    - [RAGEngine]          rag_engine.py (answer composition);
    - [LlamaIndexAgent]    llamaindex_agent.py (the order placement tool);
    - [ChatInterface]      chat_interface.py (the POST /respond route);
    - [OrderProcessorAccessors]
                           order_processor.py (the read accessors, calls in a row);
    - [SarvamSetup],
      [SarvamAnswer]       sarvam_llm_service.py (the configuration, the answer read
                           from a response);
    - [RAGSearch]          rag_engine.py (the search);
    - [LlamaIndexAgentChat]
                           llamaindex_agent.py (the lookup tool, [chat] and its
                           fallback);
    - [ChatSession]        chat_interface.py (the terminal session).

    Definitions come first; the lemmas and the theorems about them follow. *)

From Stdlib Require Import ZArith List String Ascii Bool Lia.
From Stdlib Require Import DecimalString DecimalZ DecimalPos.
From Stdlib Require Import Sorting.Mergesort Sorting.Sorted Orders Permutation.
Import ListNotations.

Local Open Scope string_scope.
Local Open Scope Z_scope.

(* ================================================================== *)
(** * The Python runtime                                                *)
(* ================================================================== *)

Module Py.

(** ** Strings

    A Python [str] is modelled as a [string] whose characters are the code
    points below 256. *)

(** The double quote character, for texts that contain one. *)
Definition dquote : string := String (ascii_of_nat 34) EmptyString.

(** [str.isspace] on one character: TAB..CR, FS..US, SPACE, NEL, NBSP. *)
Definition is_space (c : ascii) : bool :=
  let n := N_of_ascii c in
  (((9 <=? n) && (n <=? 13)) || ((28 <=? n) && (n <=? 32)) || (n =? 133) || (n =? 160))%N.

(** [str.lower] on one character: A..Z, and the upper case letters of the
    Latin-1 block (all of 192..222 but the multiplication sign 215). *)
Definition lower_char (c : ascii) : ascii :=
  let n := N_of_ascii c in
  if (((65 <=? n) && (n <=? 90)) || ((192 <=? n) && (n <=? 222) && negb (n =? 215)))%N
  then ascii_of_N (n + 32) else c.

(** [str.upper] on one character of ASCII text (the code applies it to
    hexadecimal digits only). *)
Definition upper_char (c : ascii) : ascii :=
  let n := N_of_ascii c in
  if ((97 <=? n) && (n <=? 122))%N then ascii_of_N (n - 32) else c.

Fixpoint map_chars (f : ascii -> ascii) (s : string) : string :=
  match s with
  | EmptyString => EmptyString
  | String c r => String (f c) (map_chars f r)
  end.

(** [s.lower()] and [s.upper()]. *)
Definition lower (s : string) : string := map_chars lower_char s.
Definition upper (s : string) : string := map_chars upper_char s.

(** [s[:n]]. *)
Fixpoint take (n : nat) (s : string) : string :=
  match n, s with
  | S k, String c r => String c (take k r)
  | _, _ => EmptyString
  end.

(** [len(s)]. *)
Definition len (s : string) : nat := String.length s.

(** [sub in s]. *)
Fixpoint contains (sub s : string) : bool :=
  prefix sub s ||
  match s with
  | EmptyString => false
  | String _ r => contains sub r
  end.

(** [sep.join(parts)]. *)
Definition join (sep : string) (parts : list string) : string := String.concat sep parts.

(** [s.split()]: the maximal runs of characters that are not white space.
    [word] holds the run being read, in reverse. *)
Fixpoint split_from (word : list ascii) (s : string) : list string :=
  let flush := match word with
               | [] => []
               | _ => [string_of_list_ascii (rev word)]
               end in
  match s with
  | EmptyString => flush
  | String c r => if is_space c then flush ++ split_from [] r
                  else split_from (c :: word) r
  end.

Definition split (s : string) : list string := split_from [] s.

(** [s.strip()]. *)
Fixpoint lstrip (s : string) : string :=
  match s with
  | String c r => if is_space c then lstrip r else s
  | EmptyString => EmptyString
  end.

Fixpoint rstrip (s : string) : string :=
  match s with
  | EmptyString => EmptyString
  | String c r =>
      match rstrip r with
      | EmptyString => if is_space c then EmptyString else String c EmptyString
      | r' => String c r'
      end
  end.

Definition strip (s : string) : string := rstrip (lstrip s).

(** ** Integers

    Python integers are unbounded: [Z]. *)

(** [str(n)] for an [int]. *)
Definition Z_to_str (n : Z) : string := NilZero.string_of_int (Z.to_int n).

Definition is_digit (c : ascii) : bool :=
  let n := N_of_ascii c in ((48 <=? n) && (n <=? 57))%N.

(** The digits of an integer literal, underscores removed: an underscore
    may only stand between two digits.  [after_digit] tells whether the
    previous character was a digit. *)
Fixpoint strip_underscores (after_digit : bool) (s : string) : option string :=
  match s with
  | EmptyString => Some EmptyString
  | String c r =>
      if Ascii.eqb c "_" then
        match r with
        | String d _ => if after_digit && is_digit d then strip_underscores false r else None
        | EmptyString => None
        end
      else if is_digit c then option_map (String c) (strip_underscores true r)
      else None
  end.

Definition digits_value (s : string) : option Z :=
  match strip_underscores false s with
  | Some ds => option_map Z.of_uint (NilZero.uint_of_string ds)
  | None => None
  end.

(** [int(s)] for a [str]: surrounding white space, an optional sign, then
    decimal digits.  [None] stands for the [ValueError]. *)
Definition int_of_str (s : string) : option Z :=
  match strip s with
  | String "-" r => option_map Z.opp (digits_value r)
  | String "+" r => digits_value r
  | t => digits_value t
  end.

(** ** Floats

    The IEEE arithmetic and the text conversions of [float] belong to the
    interpreter; the code is verified against this interface of them.  The two
    laws hold of binary64 and of CPython's [repr]: a product of a number that
    is not negative by a positive integer is not negative, and the text of a
    number that equals itself (any but NaN) reads back as that number. *)
Class PyFloat : Type := {
  float : Type;
  (** [bool(x)] *)
  float_bool : float -> bool;
  (** [x < 0] *)
  float_lt0 : float -> bool;
  (** [x == y] *)
  float_eqb : float -> float -> bool;
  (** [x == n] for an integer [n] *)
  float_eqb_int : float -> Z -> bool;
  (** [x * n] for an integer [n]; [None] is the [OverflowError] of an
      integer too large to convert *)
  float_mul_int : float -> Z -> option float;
  (** [str(x)] *)
  float_str : float -> string;
  (** [float(s)]; [None] is the [ValueError] *)
  float_of_str : string -> option float;
  (** [format(x, '.2f')] *)
  float_fmt2f : float -> string;
  float_mul_int_sign : forall x n t,
    float_lt0 x = false -> 0 < n -> float_mul_int x n = Some t -> float_lt0 t = false;
  float_of_str_str : forall x,
    float_eqb x x = true -> float_of_str (float_str x) = Some x
}.

(** ** Exceptions *)

(** The exception classes the repository raises or catches; [Requests_] marks
    those of the [requests] package and [JSONDecodeError] is the one of [json]. *)
Inductive exn_class : Type :=
  | Exception
  | ValueError
  | TypeError
  | AttributeError
  | OverflowError
  | OSError
  | JSONDecodeError
  | Requests_RequestException
  | Requests_Timeout
  | Requests_ConnectionError
  | Requests_ConnectTimeout
  | Requests_ReadTimeout
  | Requests_InvalidJSONError
  | Requests_JSONDecodeError.

Definition exn_class_eqb (a b : exn_class) : bool :=
  match a, b with
  | Exception, Exception | ValueError, ValueError | TypeError, TypeError
  | AttributeError, AttributeError | OverflowError, OverflowError | OSError, OSError
  | JSONDecodeError, JSONDecodeError
  | Requests_RequestException, Requests_RequestException
  | Requests_Timeout, Requests_Timeout
  | Requests_ConnectionError, Requests_ConnectionError
  | Requests_ConnectTimeout, Requests_ConnectTimeout
  | Requests_ReadTimeout, Requests_ReadTimeout
  | Requests_InvalidJSONError, Requests_InvalidJSONError
  | Requests_JSONDecodeError, Requests_JSONDecodeError => true
  | _, _ => false
  end.

(** The method resolution order of each class: the class and its ancestors.
    [requests.exceptions.RequestException] derives from [IOError] (that is
    [OSError]); since requests 2.27 [Response.json] raises
    [requests.exceptions.JSONDecodeError], which derives from both
    [InvalidJSONError] and [json.JSONDecodeError]. *)
Definition mro (c : exn_class) : list exn_class :=
  match c with
  | Exception => [Exception]
  | ValueError => [ValueError; Exception]
  | TypeError => [TypeError; Exception]
  | AttributeError => [AttributeError; Exception]
  | OverflowError => [OverflowError; Exception]
  | OSError => [OSError; Exception]
  | JSONDecodeError => [JSONDecodeError; ValueError; Exception]
  | Requests_RequestException => [Requests_RequestException; OSError; Exception]
  | Requests_Timeout => [Requests_Timeout; Requests_RequestException; OSError; Exception]
  | Requests_ConnectionError =>
      [Requests_ConnectionError; Requests_RequestException; OSError; Exception]
  | Requests_ConnectTimeout =>
      [Requests_ConnectTimeout; Requests_ConnectionError; Requests_Timeout;
       Requests_RequestException; OSError; Exception]
  | Requests_ReadTimeout =>
      [Requests_ReadTimeout; Requests_Timeout; Requests_RequestException; OSError; Exception]
  | Requests_InvalidJSONError =>
      [Requests_InvalidJSONError; Requests_RequestException; OSError; Exception]
  | Requests_JSONDecodeError =>
      [Requests_JSONDecodeError; Requests_InvalidJSONError; Requests_RequestException;
       OSError; JSONDecodeError; ValueError; Exception]
  end.

(** A raised exception: its class and [str(e)]. *)
Record exn : Type := mk_exn { class_of : exn_class; str_of : string }.

(** [isinstance(e, c)], the test an [except c] clause makes. *)
Definition isinstance (e : exn) (c : exn_class) : bool :=
  existsb (exn_class_eqb c) (mro (class_of e)).

(** The outcome of a computation that may raise. *)
Inductive res (A : Type) : Type :=
  | Ok (a : A)
  | Raise (e : exn).
Arguments Ok {A} a.
Arguments Raise {A} e.

Definition bind {A B : Type} (c : res A) (k : A -> res B) : res B :=
  match c with
  | Ok a => k a
  | Raise e => Raise e
  end.

Definition raise {A : Type} (c : exn_class) (msg : string) : res A := Raise (mk_exn c msg).

(** ** Values *)

Section Values.
Context `{PyFloat}.

(** A value whose class the code has not checked yet: [None], a [bool], an
    [int], a [float], a [str], or an instance of another class, of which only
    the text [str] gives is kept (such an object is true, is no number and no
    string, and has no [lower] method). *)
Inductive pyval : Type :=
  | VNone
  | VBool (b : bool)
  | VInt (n : Z)
  | VFloat (x : float)
  | VStr (s : string)
  | VObj (text : string).

(** An instance of [int]: [bool] is a subclass of [int]. *)
Inductive pyint : Type :=
  | IInt (n : Z)
  | IBool (b : bool).

(** An instance of [int] or of [float]. *)
Inductive pynum : Type :=
  | NInt (i : pyint)
  | NFloat (x : float).

(** The integer a [pyint] counts as in arithmetic and comparisons. *)
Definition int_val (i : pyint) : Z :=
  match i with
  | IInt n => n
  | IBool b => if b then 1 else 0
  end.

(** [str(i)]. *)
Definition int_str (i : pyint) : string :=
  match i with
  | IInt n => Z_to_str n
  | IBool b => if b then "True" else "False"
  end.

(** [str(x)] for a number. *)
Definition num_str (x : pynum) : string :=
  match x with
  | NInt i => int_str i
  | NFloat f => float_str f
  end.

(** [format(x, '.2f')] for a number: an integer prints with two zeros. *)
Definition num_fmt2f (x : pynum) : string :=
  match x with
  | NInt i => Z_to_str (int_val i) ++ ".00"
  | NFloat f => float_fmt2f f
  end.

(** [x < 0] for a number. *)
Definition num_lt0 (x : pynum) : bool :=
  match x with
  | NInt i => int_val i <? 0
  | NFloat f => float_lt0 f
  end.

(** [x == y] for numbers. *)
Definition num_eqb (x y : pynum) : bool :=
  match x, y with
  | NInt i, NInt j => int_val i =? int_val j
  | NInt i, NFloat g => float_eqb_int g (int_val i)
  | NFloat f, NInt j => float_eqb_int f (int_val j)
  | NFloat f, NFloat g => float_eqb f g
  end.

(** [x * n] for a number [x] and an integer [n]. *)
Definition num_mul_int (x : pynum) (n : pyint) : res pynum :=
  match x with
  | NInt i => Ok (NInt (IInt (int_val i * int_val n)))
  | NFloat f =>
      match float_mul_int f (int_val n) with
      | Some t => Ok (NFloat t)
      | None => raise OverflowError "int too large to convert to float"
      end
  end.

Definition of_int (i : pyint) : pyval :=
  match i with
  | IInt n => VInt n
  | IBool b => VBool b
  end.

Definition of_num (x : pynum) : pyval :=
  match x with
  | NInt i => of_int i
  | NFloat f => VFloat f
  end.

(** The truth value of [v], as [not v], [if v] and [v or w] test it. *)
Definition truthy (v : pyval) : bool :=
  match v with
  | VNone => false
  | VBool b => b
  | VInt n => negb (n =? 0)
  | VFloat x => float_bool x
  | VStr s => negb (String.eqb s "")
  | VObj _ => true
  end.

(** [isinstance(v, str)], [isinstance(v, int)], [isinstance(v, (int, float))]. *)
Definition isinstance_str (v : pyval) : bool :=
  match v with VStr _ => true | _ => false end.

Definition isinstance_int (v : pyval) : bool :=
  match v with VInt _ | VBool _ => true | _ => false end.

Definition isinstance_int_float (v : pyval) : bool :=
  match v with VInt _ | VBool _ | VFloat _ => true | _ => false end.

(** The constraints the records state of their fields. *)
Definition nonempty_str (v : pyval) : Prop := exists s, v = VStr s /\ s <> "".
Definition nonneg_number (v : pyval) : Prop := exists x, v = of_num x /\ num_lt0 x = false.
Definition nonneg_int (v : pyval) : Prop := exists i, v = of_int i /\ 0 <= int_val i.
Definition positive_int (v : pyval) : Prop := exists i, v = of_int i /\ 0 < int_val i.

(** The typed readings of a value; [None] when it is of another class. *)
Definition as_str (v : pyval) : option string :=
  match v with VStr s => Some s | _ => None end.

Definition as_int (v : pyval) : option pyint :=
  match v with
  | VInt n => Some (IInt n)
  | VBool b => Some (IBool b)
  | _ => None
  end.

Definition as_num (v : pyval) : option pynum :=
  match v with
  | VFloat x => Some (NFloat x)
  | _ => option_map NInt (as_int v)
  end.

(** [v < 0] and [v <= 0], which the code evaluates on numbers only (after the
    [isinstance] test of the same condition). *)
Definition lt0 (v : pyval) : bool :=
  match as_num v with
  | Some x => num_lt0 x
  | None => false
  end.

Definition le0 (v : pyval) : bool :=
  match as_int v with
  | Some i => int_val i <=? 0
  | None => false
  end.

(** [str(v)], as an f-string formats [v]. *)
Definition str (v : pyval) : string :=
  match v with
  | VNone => "None"
  | VBool b => int_str (IBool b)
  | VInt n => Z_to_str n
  | VFloat x => float_str x
  | VStr s => s
  | VObj text => text
  end.

(** [v.lower()]: only a [str] has the method. *)
Definition lower_of (v : pyval) : res string :=
  match v with
  | VStr s => Ok (lower s)
  | _ => raise AttributeError "object has no attribute 'lower'"
  end.

End Values.

(** ** Dictionaries with [str] keys

    A [dict] keeps its keys in insertion order, and the code iterates over
    [items()]: an association list without repeated keys. *)
Section Dict.
Context {V : Type}.

Definition dict : Type := list (string * V).

(** [d.get(k)]; [k in d] is [get d k <> None]. *)
Fixpoint get (d : dict) (k : string) : option V :=
  match d with
  | [] => None
  | (k', v) :: r => if String.eqb k' k then Some v else get r k
  end.

Definition mem (d : dict) (k : string) : bool :=
  match get d k with Some _ => true | None => false end.

(** [d[k] = v]: in place for a key of [d], at the end for a new key. *)
Fixpoint set (d : dict) (k : string) (v : V) : dict :=
  match d with
  | [] => [(k, v)]
  | (k', v') :: r => if String.eqb k' k then (k, v) :: r else (k', v') :: set r k v
  end.

End Dict.
Arguments dict V : clear implicits.

End Py.

Notation "x <- c ;; k" := (Py.bind c (fun x => k))
  (at level 61, c at next level, right associativity).
Notation "' pat <- c ;; k" := (Py.bind c (fun x => match x with pat => k end))
  (at level 61, pat pattern, c at next level, right associativity).

Import Py.

(* ================================================================== *)
(** * data_models.py                                                    *)
(* ================================================================== *)

(** The dataclasses keep whatever they are given; [__post_init__] then
    checks some of the fields.  A field that a check inspects enters the
    constructor as a [pyval] and is stored at the type the check establishes;
    a field no check inspects ([description], [order_date]) has its annotated
    type [str]. *)

Module Product.
Section WithFloat.
Context `{PyFloat}.

Record t : Type := mk {
  product_id : string;
  name : string;
  description : string;
  price : pynum;
  stock_quantity : pyint;
  category : string
}.

Definition __post_init__ (product_id name price stock_quantity category : pyval) : res unit :=
  if negb (truthy product_id) || negb (isinstance_str product_id) then
    raise ValueError "Product ID must be a non-empty string"
  else if negb (truthy name) || negb (isinstance_str name) then
    raise ValueError "Product name must be a non-empty string"
  else if negb (isinstance_int_float price) || lt0 price then
    raise ValueError "Price must be a non-negative number"
  else if negb (isinstance_int stock_quantity) || lt0 stock_quantity then
    raise ValueError "Stock quantity must be a non-negative integer"
  else if negb (truthy category) || negb (isinstance_str category) then
    raise ValueError "Category must be a non-empty string"
  else Ok tt.

(** [Product(product_id, name, description, price, stock_quantity, category)].
    The last branch is not taken: the checks establish the five readings. *)
Definition new (product_id name : pyval) (description : string)
    (price stock_quantity category : pyval) : res t :=
  _ <- __post_init__ product_id name price stock_quantity category ;;
  match as_str product_id, as_str name, as_num price, as_int stock_quantity, as_str category with
  | Some i, Some n, Some p, Some s, Some c => Ok (mk i n description p s c)
  | _, _, _, _, _ => raise TypeError "field of an unexpected class"
  end.

Definition is_in_stock (self : t) (quantity : pyint) : bool :=
  int_val (stock_quantity self) >=? int_val quantity.

End WithFloat.
End Product.

Module Order.
Section WithFloat.
Context `{PyFloat}.

Record t : Type := mk {
  product_id : string;
  quantity : pyint;
  delivery_address : string;
  product_name : pyval
}.

Definition __post_init__ (product_id quantity delivery_address : pyval) : res unit :=
  if negb (truthy product_id) || negb (isinstance_str product_id) then
    raise ValueError "Product ID must be a non-empty string"
  else if negb (isinstance_int quantity) || le0 quantity then
    raise ValueError "Quantity must be a positive integer"
  else if negb (truthy delivery_address) || negb (isinstance_str delivery_address) then
    raise ValueError "Delivery address must be a non-empty string"
  else Ok tt.

(** [Order(product_id, quantity, delivery_address, product_name)];
    [product_name] is kept as given. *)
Definition new (product_id quantity delivery_address product_name : pyval) : res t :=
  _ <- __post_init__ product_id quantity delivery_address ;;
  match as_str product_id, as_int quantity, as_str delivery_address with
  | Some i, Some q, Some a => Ok (mk i q a product_name)
  | _, _, _ => raise TypeError "field of an unexpected class"
  end.

End WithFloat.
End Order.

(** What [StoredOrder.from_order] reads from the outside: [uuid.uuid4().hex]
    and [datetime.now().strftime(...)]. *)
Record Clock : Type := mk_clock { uuid4_hex : string; now_date : string }.

Module StoredOrder.
Section WithFloat.
Context `{PyFloat}.

Record t : Type := mk {
  order_id : string;
  product_id : string;
  product_name : string;
  quantity : pyint;
  delivery_address : string;
  order_date : string;
  total_price : pynum
}.

Definition __post_init__
    (order_id product_id product_name quantity delivery_address total_price : pyval) : res unit :=
  if negb (truthy order_id) || negb (isinstance_str order_id) then
    raise ValueError "Order ID must be a non-empty string"
  else if negb (truthy product_id) || negb (isinstance_str product_id) then
    raise ValueError "Product ID must be a non-empty string"
  else if negb (truthy product_name) || negb (isinstance_str product_name) then
    raise ValueError "Product name must be a non-empty string"
  else if negb (isinstance_int quantity) || le0 quantity then
    raise ValueError "Quantity must be a positive integer"
  else if negb (truthy delivery_address) || negb (isinstance_str delivery_address) then
    raise ValueError "Delivery address must be a non-empty string"
  else if negb (isinstance_int_float total_price) || lt0 total_price then
    raise ValueError "Total price must be a non-negative number"
  else Ok tt.

(** [StoredOrder(order_id, ..., total_price)]. *)
Definition new (order_id product_id product_name quantity delivery_address : pyval)
    (order_date : string) (total_price : pyval) : res t :=
  _ <- __post_init__ order_id product_id product_name quantity delivery_address total_price ;;
  match as_str order_id, as_str product_id, as_str product_name, as_int quantity,
        as_str delivery_address, as_num total_price with
  | Some o, Some i, Some n, Some q, Some a, Some p => Ok (mk o i n q a order_date p)
  | _, _, _, _, _, _ => raise TypeError "field of an unexpected class"
  end.

(** The equality a dataclass defines: field by field, with [==]. *)
Definition eqb (x y : t) : bool :=
  String.eqb (order_id x) (order_id y)
  && String.eqb (product_id x) (product_id y)
  && String.eqb (product_name x) (product_name y)
  && (int_val (quantity x) =? int_val (quantity y))
  && String.eqb (delivery_address x) (delivery_address y)
  && String.eqb (order_date x) (order_date y)
  && num_eqb (total_price x) (total_price y).

Definition to_csv_row (self : t) : list string :=
  [ order_id self;
    product_id self;
    product_name self;
    int_str (quantity self);
    delivery_address self;
    order_date self;
    num_str (total_price self) ].




(** [from_order(order, product, order_id=None)]. *)
Definition from_order (clock : Clock) (order : Order.t) (product : Product.t)
    (order_id : option string) : res t :=
  let order_id :=
    match order_id with
    | None => "ORD" ++ upper (take 6 (uuid4_hex clock))
    | Some given => given
    end in
  total_price <- num_mul_int (Product.price product) (Order.quantity order) ;;
  let order_date := now_date clock in
  new (VStr order_id)
      (VStr (Order.product_id order))
      (if truthy (Order.product_name order) then Order.product_name order
       else VStr (Product.name product))
      (of_int (Order.quantity order))
      (VStr (Order.delivery_address order))
      order_date
      (of_num total_price).

End WithFloat.
End StoredOrder.

(* ================================================================== *)
(** * order_processor.py                                                *)
(* ================================================================== *)

Module OrderProcessor.
Section WithFloat.
Context `{PyFloat}.

(** The processor: its product table, and the rows of the file at
    [orders_csv_path] (the ledger). *)
Record t : Type := mk {
  products : dict Product.t;
  orders_csv : list (list string)
}.

(** What one call meets outside the processor: the clock and the identifier
    source, and whether the ledger file can be opened and appended to. *)
Record Env : Type := mk_env { clock : Clock; csv_append_ok : bool }.

(** The dictionary [process_order] returns.  A failure carries [None] for
    [order_id] and [total_price] and has no [order_details] key. *)
Record OrderDetails : Type := mk_details {
  od_product_name : string;
  od_quantity : pyval;
  od_unit_price : pynum;
  od_total_price : pynum;
  od_delivery_address : pyval;
  od_order_date : string
}.

Record Result : Type := mk_result {
  success : bool;
  message : string;
  order_id : option string;
  total_price : option pynum;
  order_details : option OrderDetails
}.

Definition failure (message : string) : Result :=
  mk_result false message None None None.

(** The label [f"{pid} ({product.name})"] of a suggestion. *)
Definition label (entry : string * Product.t) : string :=
  fst entry ++ " (" ++ Product.name (snd entry) ++ ")".

Definition _get_similar_products (self : t) (product_id : string) : list string :=
  let product_id_lower := lower product_id in
  map label
    (filter (fun entry =>
               contains product_id_lower (lower (fst entry))
               || contains product_id_lower (lower (Product.name (snd entry)))
               || existsb (fun word => contains word (lower (Product.name (snd entry))))
                          (split product_id_lower))
            (products self)).

Definition _get_category_alternatives (self : t) (category exclude_product_id : string)
    : list string :=
  map label
    (filter (fun entry =>
               String.eqb (Product.category (snd entry)) category
               && negb (String.eqb (fst entry) exclude_product_id)
               && (int_val (Product.stock_quantity (snd entry)) >? 0))
            (products self)).

Definition validate_product_availability (self : t) (product_id : string) (quantity : pyint)
    : bool * string * option Product.t :=
  match get (products self) product_id with
  | None =>
      let available_products := _get_similar_products self product_id in
      let message := "Product " ++ product_id ++ " not found." in
      let message :=
        match available_products with
        | [] => message
        | _ => message ++ " Did you mean one of these: "
                       ++ join ", " (firstn 5 available_products) ++ "?"
        end in
      (false, message, None)
  | Some product =>
      if negb (Product.is_in_stock product quantity) then
        let message :=
          "Insufficient stock for " ++ Product.name product
          ++ ". Available: " ++ int_str (Product.stock_quantity product)
          ++ ", Requested: " ++ int_str quantity in
        let message :=
          if int_val (Product.stock_quantity product) >? 0 then
            message ++ ". You can order up to "
                    ++ int_str (Product.stock_quantity product) ++ " units."
          else
            match _get_category_alternatives self (Product.category product) product_id with
            | [] => message
            | alternatives =>
                message ++ " Consider these alternatives: "
                        ++ join ", " (firstn 3 alternatives)
            end in
        (false, message, Some product)
      else (true, "Product available", Some product)
  end.

(** The file is opened for appending and one row is written; any error of
    that is caught and answered with [False], the ledger left as it was. *)
Definition save_order_to_csv (self : t) (env : Env) (stored_order : StoredOrder.t) : bool * t :=
  if csv_append_ok env then
    (true, mk (products self) (orders_csv self ++ [StoredOrder.to_csv_row stored_order]))
  else (false, self).

(** [self.products[product_id].stock_quantity -= quantity]. *)
Definition decrement_stock (self : t) (product_id : string) (product : Product.t)
    (quantity : pyint) : t :=
  let stock := IInt (int_val (Product.stock_quantity product) - int_val quantity) in
  mk (set (products self) product_id
          (Product.mk (Product.product_id product) (Product.name product)
                      (Product.description product) (Product.price product)
                      stock (Product.category product)))
     (orders_csv self).

(** The body of the [try] block of [process_order].  Nothing is raised once
    the ledger or the table has changed, so an exception leaves the processor
    as it was. *)
Definition process_order_try (self : t) (env : Env)
    (product_id quantity delivery_address product_name : pyval) : res (Result * t) :=
  order <- Order.new product_id quantity delivery_address product_name ;;
  let '(is_valid, message, product) :=
    validate_product_availability self (Order.product_id order) (Order.quantity order) in
  if negb is_valid then Ok (failure message, self)
  else
    product <- match product with
               | Some p => Ok p
               | None => raise AttributeError "'NoneType' object has no attribute 'name'"
               end ;;
    mismatch <- (if truthy product_name then
                   given <- lower_of product_name ;;
                   Ok (negb (String.eqb given (lower (Product.name product))))
                 else Ok false) ;;
    if mismatch then
      Ok (failure ("Product name mismatch. Expected '" ++ Product.name product
                   ++ "' for product ID " ++ Order.product_id order), self)
    else
      stored_order <- StoredOrder.from_order (clock env) order product None ;;
      let '(saved, self) := save_order_to_csv self env stored_order in
      if saved then
        let self := decrement_stock self (Order.product_id order) product (Order.quantity order) in
        Ok (mk_result true
              ("Order " ++ StoredOrder.order_id stored_order
               ++ " placed successfully for " ++ Product.name product)
              (Some (StoredOrder.order_id stored_order))
              (Some (StoredOrder.total_price stored_order))
              (Some (mk_details (Product.name product) quantity (Product.price product)
                       (StoredOrder.total_price stored_order) delivery_address
                       (StoredOrder.order_date stored_order))),
            self)
      else Ok (failure "Failed to save order. Please try again.", self).

(** [process_order]: the [try] block under its two [except] clauses. *)
Definition process_order (self : t) (env : Env)
    (product_id quantity delivery_address product_name : pyval) : res Result * t :=
  match process_order_try self env product_id quantity delivery_address product_name with
  | Ok (result, self) => (Ok result, self)
  | Raise e =>
      if isinstance e ValueError then
        (Ok (failure ("Invalid order data: " ++ str_of e)), self)
      else if isinstance e Exception then
        (Ok (failure
               "An unexpected error occurred while processing your order. Please try again."),
         self)
      else (Raise e, self)
  end.

End WithFloat.
End OrderProcessor.

(* ================================================================== *)
(** * sarvam_llm_service.py                                             *)
(* ================================================================== *)

Module SarvamLLMService.
Section Service.
(** The request payload and the parsed body of a response. *)
Context {Payload Json : Type}.

Record SarvamConfig : Type := mk_config {
  api_key : string;
  api_url : string;
  model : string;
  timeout : Z;
  max_retries : Z
}.

(** A response of the server: [json] is what [response.json()] does, the
    parsed body or the exception of a body that does not decode. *)
Record Response : Type := mk_response {
  status_code : Z;
  text : string;
  json : res Json
}.

(** The world of the client: [server k payload] is what the [k]-th call of
    [session.post] meets (a response, or the exception it raises); [posts]
    counts the calls made and [slept] lists the [time.sleep] durations, the
    oldest first. *)
Record World : Type := mk_world {
  server : nat -> Payload -> res Response;
  posts : nat;
  slept : list Z
}.

Definition session_post (payload : Payload) (w : World) : res Response * World :=
  (server w (posts w) payload, mk_world (server w) (S (posts w)) (slept w)).

Definition time_sleep (seconds : Z) (w : World) : World :=
  mk_world (server w) (posts w) (slept w ++ [seconds]).

Definition _wait_with_backoff (attempt : Z) (w : World) : World :=
  let wait_time := 2 ^ attempt in
  time_sleep wait_time w.

(** How one round of the [for] loop ends. *)
Inductive flow : Type :=
  | Return (data : Json)
  | Raised (e : exn)
  | Continue
  | Break.

(** The [except] clauses of the loop body, in their order; an exception none
    of them catches leaves the function.  A clause that does not [continue]
    on the last attempt falls out of the body, which ends the round too. *)
Definition handlers (self : SarvamConfig) (attempt : Z) (e : exn)
    (last_exception : option exn) (w : World) : flow * option exn * World :=
  if isinstance e Requests_Timeout then
    let last_exception := Some (mk_exn Exception "Request timeout") in
    if attempt <? max_retries self then
      (Continue, last_exception, _wait_with_backoff attempt w)
    else (Continue, last_exception, w)
  else if isinstance e Requests_ConnectionError then
    let last_exception := Some (mk_exn Exception "Connection error") in
    if attempt <? max_retries self then
      (Continue, last_exception, _wait_with_backoff attempt w)
    else (Continue, last_exception, w)
  else if isinstance e Requests_RequestException then
    let last_exception := Some e in
    if attempt <? max_retries self then
      (Continue, last_exception, _wait_with_backoff attempt w)
    else (Continue, last_exception, w)
  else if isinstance e JSONDecodeError then
    (Break, Some e, w)
  else (Raised e, last_exception, w).

(** The body of the [for] loop: the [try] block, then [handlers] on what it
    raises. *)
Definition attempt_once (self : SarvamConfig) (payload : Payload) (attempt : Z)
    (last_exception : option exn) (w : World) : flow * option exn * World :=
  let '(posted, w) := session_post payload w in
  match posted with
  | Raise e => handlers self attempt e last_exception w
  | Ok response =>
      let status := status_code response in
      if status =? 200 then
        match json response with
        | Ok data => (Return data, last_exception, w)
        | Raise e => handlers self attempt e last_exception w
        end
      else if status =? 401 then
        handlers self attempt
          (mk_exn Exception "Authentication failed. Please check your SARVAM_API_KEY.")
          last_exception w
      else if status =? 429 then
        if attempt <? max_retries self then
          (Continue, last_exception, _wait_with_backoff attempt w)
        else
          handlers self attempt (mk_exn Exception "Rate limit exceeded after all retries")
            last_exception w
      else if (500 <=? status) && (status <? 600) then
        if attempt <? max_retries self then
          (Continue, last_exception, _wait_with_backoff attempt w)
        else
          handlers self attempt
            (mk_exn Exception ("Server error " ++ Z_to_str status ++ " after all retries"))
            last_exception w
      else
        handlers self attempt
          (mk_exn Exception ("API request failed with status " ++ Z_to_str status
                             ++ ": " ++ text response))
          last_exception w
  end.

(** What follows the loop. *)
Definition after_loop (last_exception : option exn) : res Json :=
  match last_exception with
  | Some e => Raise e
  | None => raise Exception "API request failed after all retries"
  end.

(** The [for] loop over the attempts still to make. *)
Fixpoint loop (self : SarvamConfig) (payload : Payload) (attempts : list Z)
    (last_exception : option exn) (w : World) : res Json * World :=
  match attempts with
  | [] => (after_loop last_exception, w)
  | attempt :: rest =>
      let '(how, last_exception, w) := attempt_once self payload attempt last_exception w in
      match how with
      | Return data => (Ok data, w)
      | Raised e => (Raise e, w)
      | Continue => loop self payload rest last_exception w
      | Break => (after_loop last_exception, w)
      end
  end.

(** [range(n)]. *)
Definition range (n : Z) : list Z := map Z.of_nat (seq 0 (Z.to_nat n)).

Definition _make_request_with_retry (self : SarvamConfig) (payload : Payload) (w : World)
    : res Json * World :=
  loop self payload (range (max_retries self + 1)) None w.

End Service.
Arguments Response Json : clear implicits.
Arguments World Payload Json : clear implicits.
End SarvamLLMService.

(* ================================================================== *)
(** * rag_engine.py                                                     *)
(* ================================================================== *)

(** [sorted] on strings: the order of [str] is the order of code points. *)
Module StringOrder <: TotalLeBool.
Definition t : Type := string.
Definition leb : string -> string -> bool := String.leb.
Definition leb_total : forall s1 s2, leb s1 s2 = true \/ leb s2 s1 = true := String.leb_total.
End StringOrder.

Module StringSort := Sort StringOrder.

Module RAGEngine.
Section WithFloat.
Context `{PyFloat}.

(** The engine: its own list of products.  (The vector index serves
    [search_products] only.) *)
Record t : Type := mk { products : list Product.t }.

(** [self.llm_service.simple_completion(prompt, system_message, ...)]: the
    text of the answer, or the exception the service raises. *)
Definition Completion : Type := string -> string -> res string.

Definition nl : string := String (ascii_of_nat 10) EmptyString.

(** [enumerate(xs, 1)]. *)
Definition enumerate1 {A : Type} (xs : list A) : list (Z * A) :=
  combine (map Z.of_nat (seq 1 (List.length xs))) xs.

(** [sorted(list(categories))] for the set of the products' categories. *)
Definition _get_available_categories (self : t) : list string :=
  StringSort.sort (nodup string_dec (map Product.category (products self))).

Definition _generate_no_results_response (self : t) (query : string) : string :=
  "I couldn't find any products matching " ++ dquote ++ query ++ dquote
  ++ " in our catalog. " ++ nl
  ++ nl
  ++ "Here are some suggestions:" ++ nl
  ++ "- Try using different keywords or synonyms" ++ nl
  ++ "- Check for spelling errors" ++ nl
  ++ "- Use more general terms (e.g., " ++ dquote ++ "chair" ++ dquote
  ++ " instead of specific model names)" ++ nl
  ++ "- Browse our categories: " ++ join ", " (_get_available_categories self) ++ nl
  ++ nl
  ++ "Would you like me to show you our popular products or help you search for something else?".

Definition _format_products_for_response (products : list Product.t) : string :=
  join (nl ++ nl)
    (map (fun '(i, product) =>
            let stock_status :=
              if int_val (Product.stock_quantity product) >? 0 then "In Stock"
              else "Out of Stock" in
            Z_to_str i ++ ". " ++ Product.name product
            ++ " (ID: " ++ Product.product_id product ++ ")" ++ nl
            ++ "   Category: " ++ Product.category product ++ nl
            ++ "   Price: $" ++ num_fmt2f (Product.price product) ++ nl
            ++ "   Stock: " ++ int_str (Product.stock_quantity product)
            ++ " units (" ++ stock_status ++ ")" ++ nl
            ++ "   Description: " ++ Product.description product)
         (enumerate1 products)).

(** One entry of the fallback listing. *)
Definition fallback_entry (i : Z) (product : Product.t) : string :=
  let stock_info :=
    if int_val (Product.stock_quantity product) >? 0
    then int_str (Product.stock_quantity product) ++ " in stock"
    else "Out of stock" in
  Z_to_str i ++ ". " ++ Product.name product ++ " - $" ++ num_fmt2f (Product.price product)
  ++ " (" ++ stock_info ++ ")" ++ nl
  ++ "   " ++ take 100 (Product.description product)
  ++ (if (100 <? len (Product.description product))%nat then "..." else "").

Definition _generate_fallback_response (self : t) (query : string) (products : list Product.t)
    : string :=
  match products with
  | [] => _generate_no_results_response self query
  | _ =>
      let response_parts :=
        ["I found " ++ Z_to_str (Z.of_nat (List.length products))
         ++ " product(s) for your query '" ++ query ++ "':" ++ nl] in
      let response_parts :=
        (response_parts
         ++ map (fun '(i, product) => fallback_entry i product)
                (enumerate1 (firstn 5 products)))%list in
      let response_parts :=
        if (5 <? List.length products)%nat then
          (response_parts
           ++ [(nl ++ "... and " ++ Z_to_str (Z.of_nat (List.length products) - 5)
                ++ " more products.")%string])%list
        else response_parts in
      join (nl ++ nl) response_parts
  end.

Definition system_message : string :=
  "You are a helpful product assistant. Based on the provided product information, give a natural and informative response to the user's query. " ++ nl
  ++ nl
  ++ "Guidelines:" ++ nl
  ++ "- Be conversational and helpful" ++ nl
  ++ "- Highlight key product features and benefits" ++ nl
  ++ "- Mention prices and availability" ++ nl
  ++ "- If multiple products match, present them in a organized way" ++ nl
  ++ "- Keep responses concise but informative" ++ nl
  ++ "- Use natural language, not technical jargon" ++ nl
  ++ "- When providing product details ensure that the ID of the product is always included.".

Definition user_prompt (query context : string) : string :=
  "User Query: " ++ query ++ nl
  ++ nl
  ++ "Available Products:" ++ nl
  ++ context ++ nl
  ++ nl
  ++ "Please provide a helpful response about these products based on the user's query.".

(** [generate_response]: the [try] block, and the fallback of its
    [except Exception] clause. *)
Definition generate_response (self : t) (simple_completion : Completion)
    (query : string) (products : list Product.t) : res string :=
  let attempt : res string :=
    match products with
    | [] => Ok (_generate_no_results_response self query)
    | _ =>
        let context := _format_products_for_response products in
        simple_completion (user_prompt query context) system_message
    end in
  match attempt with
  | Ok response => Ok response
  | Raise e =>
      if isinstance e Exception then Ok (_generate_fallback_response self query products)
      else Raise e
  end.

End WithFloat.
End RAGEngine.

(* ================================================================== *)
(** * llamaindex_agent.py                                               *)
(* ================================================================== *)

Module LlamaIndexAgent.
Section Tool.
(** The order processor the agent holds: any object with a [process_order]
    method, here its state [P] and what a call answers, a dictionary [R] or an
    exception. *)
Context {P R : Type}.
Context `{PyFloat}.

(** What the tool function hands to the reasoning loop: the object its
    [return] statement names. *)
Inductive tool_value : Type :=
  | Dictionary (result : R)
  | Text (s : string).

(** The function [process_order] that [_create_order_placement_tool]
    registers. *)
Definition process_order
    (order_processor_process_order : P -> pyval -> pyval -> pyval -> pyval -> res R * P)
    (order_processor : P)
    (product_id quantity delivery_address product_name : pyval) : res tool_value * P :=
  match order_processor_process_order order_processor
          product_id quantity delivery_address product_name with
  | (Ok result, order_processor) => (Ok (Dictionary result), order_processor)
  | (Raise e, order_processor) =>
      if isinstance e Exception then
        (Ok (Text ("I'm sorry, I encountered an error while placing your order: " ++ str_of e)),
         order_processor)
      else (Raise e, order_processor)
  end.

End Tool.
Arguments tool_value R : clear implicits.
End LlamaIndexAgent.

(* ================================================================== *)
(** * chat_interface.py                                                 *)
(* ================================================================== *)

Module ChatInterface.

Record APIInput : Type := mk_input { password : string; query : string }.

Record AgentResponse : Type := mk_response {
  content : string;
  function_called : option string;
  success : bool;
  error_message : option string
}.

(** The assistant behind the route: [construct] is what [ChatInterface()]
    does (it initialises the three components, or raises), [chat] is the
    orchestrator's [chat]. *)
Record Assistant : Type := mk_assistant {
  construct : res unit;
  chat : string -> res AgentResponse
}.

(** The calls a request makes on the assistant, the oldest first. *)
Inductive event : Type :=
  | Constructed
  | Chat (user_input : string).

(** What the route returns: the set literal of the rejection, or the
    dictionary with the key [result] ([None] when [agentic_endpoint] returned
    nothing). *)
Inductive payload : Type :=
  | SetOf (members : list string)
  | ResultOf (result : option string).

(** [agentic_endpoint]: [_handle_processing_error] prints and returns [None]. *)
Definition agentic_endpoint (self : Assistant) (user_input : string)
    : res (option string) * list event :=
  match chat self user_input with
  | Ok response => (Ok (Some (content response)), [Chat user_input])
  | Raise e =>
      if isinstance e Exception then (Ok None, [Chat user_input])
      else (Raise e, [Chat user_input])
  end.

Definition response_endpoint (assistant : Assistant) (query : APIInput)
    : res payload * list event :=
  if negb (String.eqb (password query) "abcd1234") then
    (Ok (SetOf ["result: Incorrect Password"]), [])
  else
    match construct assistant with
    | Raise e => (Raise e, [Constructed])
    | Ok _ =>
        let '(result, calls) := agentic_endpoint assistant (ChatInterface.query query) in
        match result with
        | Ok result => (Ok (ResultOf result), Constructed :: calls)
        | Raise e => (Raise e, Constructed :: calls)
        end
    end.

End ChatInterface.

(* ================================================================== *)
(** * More of order_processor.py                                        *)
(* ================================================================== *)

(** The read accessors of the processor, and a series of [process_order]
    calls on one processor, as the agent makes them turn after turn. *)

Module OrderProcessorAccessors.
Section WithFloat.
Context `{PyFloat}.

(** [self.products.get(product_id)]. *)
Definition get_product_info (self : OrderProcessor.t) (product_id : string)
    : option Product.t :=
  get (OrderProcessor.products self) product_id.

(** [self.products.copy()]: a new dictionary on the same products. *)
Definition get_all_products (self : OrderProcessor.t) : dict Product.t :=
  OrderProcessor.products self.

(** [self.products.values()]. *)
Definition values (self : OrderProcessor.t) : list Product.t :=
  map snd (OrderProcessor.products self).

Definition get_products_by_category (self : OrderProcessor.t) (category : string)
    : list Product.t :=
  filter (fun product => String.eqb (lower (Product.category product)) (lower category))
         (values self).

Definition get_in_stock_products (self : OrderProcessor.t) : list Product.t :=
  filter (fun product => int_val (Product.stock_quantity product) >? 0) (values self).

(** One call of [process_order]: its four arguments, and what the call
    meets outside the processor. *)
Record Call : Type := mk_call {
  env : OrderProcessor.Env;
  product_id : pyval;
  quantity : pyval;
  delivery_address : pyval;
  product_name : pyval
}.

(** The calls made one after the other on the same processor: what each
    returned, and the processor in the end. *)
Fixpoint process_orders (self : OrderProcessor.t) (calls : list Call)
    : list (res OrderProcessor.Result) * OrderProcessor.t :=
  match calls with
  | [] => ([], self)
  | call :: rest =>
      let '(out, self) :=
        OrderProcessor.process_order self (env call) (product_id call) (quantity call)
          (delivery_address call) (product_name call) in
      let '(outs, self) := process_orders self rest in
      (out :: outs, self)
  end.

End WithFloat.
End OrderProcessorAccessors.

(* ================================================================== *)
(** * More of sarvam_llm_service.py: configuration and answers          *)
(* ================================================================== *)

Module SarvamSetup.
Import SarvamLLMService.




End SarvamSetup.

Module SarvamAnswer.
Section WithFloat.
Context `{PyFloat}.

(** What [response.json()] returns. *)
#[warnings="-register-all"]
Inductive json : Type :=
  | JNone
  | JBool (b : bool)
  | JInt (n : Z)
  | JFloat (x : float)
  | JStr (s : string)
  | JList (items : list json)
  | JDict (fields : list (string * json)).



(** The classes [KeyError] and [IndexError], which only this function
    names. *)
Inductive lookup_class : Type :=
  | KeyError
  | IndexError.

(** The outcome of the [try] block: a value, a lookup error with its text,
    or another exception. *)
Inductive outcome (A : Type) : Type :=
  | Done (a : A)
  | Lookup (class : lookup_class) (text : string)
  | Fails (e : exn).
Arguments Done {A} a.
Arguments Lookup {A} class text.
Arguments Fails {A} e.







End WithFloat.
End SarvamAnswer.

(* ================================================================== *)
(** * More of rag_engine.py: the search                                 *)
(* ================================================================== *)

Module RAGSearch.
Section WithFloat.
Context `{PyFloat}.

(** A retrieved node: [node.metadata.get('product_id')], the id of the
    document's product, or [None] when the metadata has none. *)
Record Node : Type := mk_node { metadata_product_id : option string }.

(** The vector index, by what a retriever over it does:
    [VectorIndexRetriever(index, similarity_top_k).retrieve(query)]. *)
Definition Index : Type := Z -> string -> res (list Node).

(** The engine with its index ([None] until [initialize_index] has built
    it). *)
Record t : Type := mk {
  engine : RAGEngine.t;
  index : option Index
}.

Definition _get_product_by_id (self : t) (product_id : string) : option Product.t :=
  find (fun product => String.eqb (Product.product_id product) product_id)
       (RAGEngine.products (engine self)).

(** The [for] loop of [search_products]: [products] and [seen_product_ids]
    as they stand, and the nodes still to visit. *)
Fixpoint collect (self : t) (nodes : list Node) (products : list Product.t)
    (seen_product_ids : list string) : list Product.t :=
  match nodes with
  | [] => products
  | node :: rest =>
      match metadata_product_id node with
      | Some product_id =>
          if negb (String.eqb product_id "")
             && negb (existsb (String.eqb product_id) seen_product_ids) then
            match _get_product_by_id self product_id with
            | Some product =>
                collect self rest (products ++ [product]) (product_id :: seen_product_ids)
            | None => collect self rest products seen_product_ids
            end
          else collect self rest products seen_product_ids
      | None => collect self rest products seen_product_ids
      end
  end.

(** [search_products(query, top_k=10)]; the [except Exception] clause logs
    and raises again. *)
Definition search_products (self : t) (query : string) (top_k : Z) : res (list Product.t) :=
  match index self with
  | None => raise ValueError "Index not initialized. Call initialize_index() first."
  | Some retrieve =>
      let attempt :=
        nodes <- retrieve top_k query ;;
        Ok (collect self nodes [] []) in
      match attempt with
      | Ok products => Ok products
      | Raise e => Raise e
      end
  end.

Definition get_product_by_id (self : t) (product_id : string) : option Product.t :=
  _get_product_by_id self product_id.

Definition get_all_products (self : t) : list Product.t := RAGEngine.products (engine self).

Definition get_products_by_category (self : t) (category : string) : list Product.t :=
  filter (fun p => String.eqb (lower (Product.category p)) (lower category))
         (RAGEngine.products (engine self)).

Definition is_initialized (self : t) : bool :=
  match index self with
  | Some _ => (0 <? List.length (RAGEngine.products (engine self)))%nat
  | None => false
  end.

End WithFloat.
End RAGSearch.

(* ================================================================== *)
(** * More of llamaindex_agent.py: the lookup tool and [chat]           *)
(* ================================================================== *)

Module LlamaIndexAgentChat.
Section WithFloat.
Context `{PyFloat}.
Import ChatInterface.

(** The orchestrator: its RAG engine with the completion service the engine
    calls, the reasoning agent ([None] when it was never built) by the text
    [str(self.agent.chat(message))] or the exception of the call, and the
    registered tools by name and description. *)
Record t : Type := mk {
  rag_engine : RAGSearch.t;
  simple_completion : RAGEngine.Completion;
  agent : option (string -> res string);
  tools : list (string * string)
}.


Definition _extract_function_called (response_content : string) : option string :=
  if contains "lookup_products" (lower response_content)
     || contains "searching" (lower response_content) then Some "lookup_products"
  else if contains "process_order" (lower response_content)
          || contains "order placed" (lower response_content) then Some "process_order"
  else None.

Definition product_keywords : list string :=
  ["product"; "item"; "furniture"; "chair"; "table"; "sofa"; "search"; "find"; "show";
   "what"; "tell me about"].

Definition order_keywords : list string :=
  ["order"; "buy"; "purchase"; "place order"; "want to order"].

(** [any(keyword in message_lower for keyword in keywords)]. *)
Definition any_in (keywords : list string) (message_lower : string) : bool :=
  existsb (fun keyword => contains keyword message_lower) keywords.

Definition order_prompt : string :=
  "I understand you want to place an order. Please provide the product ID, quantity, and delivery address. For example: 'I want to order 2 units of product P001 to be delivered to 123 Main St, City, State 12345'".

Definition catalog_trouble : string :=
  "Sorry, I'm having trouble accessing the product catalog right now.".

Definition unclear_intent : string :=
  "I'm not sure how to help with that. You can ask me about products in our catalog or place an order. What would you like to do?".

Definition fallback_trouble : string :=
  "I'm sorry, I'm having trouble understanding your request right now. Please try again later.".

(** The outer [try] block of [_fallback_processing], with the inner one
    around the calls of the RAG engine. *)
Definition _fallback_processing_try (self : t) (user_message : string) : res AgentResponse :=
  let message_lower := lower user_message in
  if any_in order_keywords message_lower then
    Ok (mk_response order_prompt None true None)
  else if any_in product_keywords message_lower then
    let inner :=
      products <- RAGSearch.search_products (rag_engine self) user_message 10 ;;
      response <- RAGEngine.generate_response (RAGSearch.engine (rag_engine self))
                    (simple_completion self) user_message products ;;
      Ok (mk_response response (Some "lookup_products") true None) in
    match inner with
    | Ok response => Ok response
    | Raise rag_error =>
        if isinstance rag_error Exception then
          Ok (mk_response catalog_trouble None false (Some (str_of rag_error)))
        else Raise rag_error
    end
  else Ok (mk_response unclear_intent None true None).

Definition _fallback_processing (self : t) (user_message error : string) : res AgentResponse :=
  match _fallback_processing_try self user_message with
  | Ok response => Ok response
  | Raise fallback_error =>
      if isinstance fallback_error Exception then
        Ok (mk_response fallback_trouble None false
              (Some ("Function calling failed: " ++ error ++ ". Fallback failed: "
                     ++ str_of fallback_error)))
      else Raise fallback_error
  end.

Definition not_available : string :=
  "Sorry, the assistant is not available right now. Please try again later.".

(** [chat]. *)
Definition chat (self : t) (user_message : string) : res AgentResponse :=
  match agent self with
  | None => Ok (mk_response not_available None false (Some "Agent not initialized"))
  | Some agent_chat =>
      let attempt :=
        content <- agent_chat user_message ;;
        let function_called := _extract_function_called content in
        Ok (mk_response content function_called true None) in
      match attempt with
      | Ok response => Ok response
      | Raise e =>
          if isinstance e Exception then _fallback_processing self user_message (str_of e)
          else Raise e
      end
  end.

Definition get_available_functions (self : t) : list (string * string) := tools self.

Definition is_ready (self : t) : bool :=
  match agent self with
  | Some _ => (0 <? List.length (tools self))%nat
  | None => false
  end.

End WithFloat.
End LlamaIndexAgentChat.

(* ================================================================== *)
(** * More of chat_interface.py: the terminal session                   *)
(* ================================================================== *)

Module ChatSession.
Section WithFloat.
Context `{PyFloat}.
Import ChatInterface.

(** What [input] meets: a line (without its end), the end of the input
    ([EOFError]), or an interrupt ([KeyboardInterrupt]). *)
Inductive keyboard : Type :=
  | Line (raw : string)
  | EndOfInput
  | Interrupt.

(** What the session prints, by the method that prints it. *)
Inductive shown : Type :=
  | NotReady
  | Welcome
  | Quit
  | EmptyInput
  | Response (response : AgentResponse)
  | ProcessingError
  | Interrupted.

(** The interface: its agent ([None] while none is built). *)
Record t : Type := mk { agent : option LlamaIndexAgentChat.t }.

(** [_should_quit].  ([upper] changes the letters a to z only; no other
    character has Q as its upper case.) *)
Definition _should_quit (user_input : string) : bool := String.eqb (upper user_input) "Q".

Definition _is_empty_input (user_input : string) : bool := (len user_input =? 0)%nat.

(** [_get_user_input]: [None] stands for the [KeyboardInterrupt] that
    [input] lets through. *)
Definition _get_user_input (key : keyboard) : option string :=
  match key with
  | Line raw => Some (strip raw)
  | EndOfInput => Some "Q"
  | Interrupt => None
  end.

(** [_process_user_input]: what is printed, with the call of the agent.
    The [except Exception] clause catches whatever [chat] raises (every class
    of [exn_class] derives from [Exception]). *)
Definition _process_user_input (agent : LlamaIndexAgentChat.t) (user_input : string) : shown :=
  match LlamaIndexAgentChat.chat agent user_input with
  | Ok response => Response response
  | Raise e => ProcessingError
  end.

(** The [while] loop of [start_chat] on the keys still to come; an input
    that is used up is at its end.  The result lists what is printed and the
    texts the agent is asked, in their order. *)
Fixpoint chat_loop (agent : LlamaIndexAgentChat.t) (keys : list keyboard)
    : list shown * list string :=
  match keys with
  | [] => ([Quit], [])
  | key :: rest =>
      match _get_user_input key with
      | None => ([Interrupted], [])
      | Some user_input =>
          if _should_quit user_input then ([Quit], [])
          else if _is_empty_input user_input then
            let '(printed, asked) := chat_loop agent rest in
            (EmptyInput :: printed, asked)
          else
            let '(printed, asked) := chat_loop agent rest in
            (_process_user_input agent user_input :: printed, user_input :: asked)
      end
  end.

(** [start_chat]. *)
Definition start_chat (self : t) (keys : list keyboard) : list shown * list string :=
  match agent self with
  | None => ([NotReady], [])
  | Some agent =>
      if negb (LlamaIndexAgentChat.is_ready agent) then ([NotReady], [])
      else
        let '(printed, asked) := chat_loop agent keys in
        (Welcome :: printed, asked)
  end.

End WithFloat.
End ChatSession.

(* ================================================================== *)
(** * Facts about the runtime                                           *)
(* ================================================================== *)

(** Case analysis on whatever the goal or a hypothesis matches on. *)
Ltac break_match :=
  match goal with
  | |- context [match ?x with _ => _ end] => destruct x eqn:?
  | H : context [match ?x with _ => _ end] |- _ => destruct x eqn:?
  end.

Ltac inv H := inversion H; subst; clear H.

(** ** Strings *)

(** All the characters of [s] satisfy [p]. *)
Fixpoint all_chars (p : ascii -> bool) (s : string) : bool :=
  match s with
  | EmptyString => true
  | String c r => p c && all_chars p r
  end.

Lemma all_chars_weaken (p q : ascii -> bool) (s : string) :
  (forall c, p c = true -> q c = true) -> all_chars p s = true -> all_chars q s = true.
Proof.
  intros Hpq. induction s as [|c r IH]; simpl; trivial.
  intros Hs. apply andb_true_iff in Hs as [Hc Hr].
  rewrite (Hpq c Hc), (IH Hr). reflexivity.
Qed.

Lemma digit_not_space (c : ascii) : is_digit c = true -> is_space c = false.
Proof. destruct c as [[] [] [] [] [] [] [] []]; vm_compute; congruence. Qed.

Lemma lstrip_no_space (s : string) :
  all_chars (fun c => negb (is_space c)) s = true -> lstrip s = s.
Proof.
  destruct s as [|c r]; simpl; trivial.
  intros Hs. apply andb_true_iff in Hs as [Hc _].
  apply negb_true_iff in Hc. rewrite Hc. reflexivity.
Qed.

Lemma rstrip_no_space (s : string) :
  all_chars (fun c => negb (is_space c)) s = true -> rstrip s = s.
Proof.
  induction s as [|c r IH]; simpl; trivial.
  intros Hs. apply andb_true_iff in Hs as [Hc Hr].
  apply negb_true_iff in Hc. rewrite (IH Hr), Hc.
  destruct r; reflexivity.
Qed.

Lemma strip_no_space (s : string) :
  all_chars (fun c => negb (is_space c)) s = true -> strip s = s.
Proof.
  intros Hs. unfold strip. rewrite (lstrip_no_space s Hs). apply rstrip_no_space, Hs.
Qed.

Lemma take_length (n : nat) (s : string) : len (take n s) = Nat.min n (len s).
Proof.
  revert s. induction n as [|n IH]; intros [|c r]; simpl; trivial.
  unfold len in IH. rewrite IH. reflexivity.
Qed.


Lemma take_prefix (n : nat) (s : string) : prefix (take n s) s = true.
Proof.
  revert s. induction n as [|n IH]; intros [|c r]; simpl; trivial.
  rewrite IH. destruct (ascii_dec c c); congruence.
Qed.





(** ** Integers and their text *)

Lemma string_of_uint_digits (d : Decimal.uint) :
  all_chars is_digit (NilEmpty.string_of_uint d) = true.
Proof. induction d; simpl; trivial. Qed.

Lemma strip_underscores_digits (b : bool) (s : string) :
  all_chars is_digit s = true -> strip_underscores b s = Some s.
Proof.
  revert b. induction s as [|c r IH]; intros b; simpl; trivial.
  intros Hs. apply andb_true_iff in Hs as [Hc Hr].
  rewrite Hc, (IH true Hr).
  destruct (Ascii.eqb_spec c "_") as [->|_]; [discriminate Hc | reflexivity].
Qed.

Lemma digits_value_to_uint (p : positive) :
  digits_value (NilEmpty.string_of_uint (Pos.to_uint p)) = Some (Z.pos p).
Proof.
  unfold digits_value.
  rewrite (strip_underscores_digits false _ (string_of_uint_digits _)).
  pose proof (DecimalPos.Unsigned.to_uint_nonnil p) as Hnil.
  pose proof (NilZero.usu (Pos.to_uint p) Hnil) as Husu.
  assert (Hs : NilZero.string_of_uint (Pos.to_uint p)
               = NilEmpty.string_of_uint (Pos.to_uint p))
    by (destruct (Pos.to_uint p); congruence || reflexivity).
  rewrite Hs in Husu. rewrite Husu. simpl.
  unfold Z.of_uint. rewrite DecimalPos.Unsigned.of_to. reflexivity.
Qed.

Lemma digit_head_value (c : ascii) (r : string) :
  is_digit c = true ->
  match String c r with
  | String "-" r' => option_map Z.opp (digits_value r')
  | String "+" r' => digits_value r'
  | t => digits_value t
  end = digits_value (String c r).
Proof. destruct c as [[] [] [] [] [] [] [] []]; vm_compute; congruence. Qed.

(** [int(str(n)) == n]. *)
Lemma int_of_str_Z_to_str (n : Z) : int_of_str (Z_to_str n) = Some n.
Proof.
  destruct n as [|p|p].
  - reflexivity.
  - unfold Z_to_str, int_of_str. simpl Z.to_int. simpl NilZero.string_of_int.
    pose proof (DecimalPos.Unsigned.to_uint_nonnil p) as Hnil.
    assert (Hs : NilZero.string_of_uint (Pos.to_uint p)
                 = NilEmpty.string_of_uint (Pos.to_uint p))
      by (destruct (Pos.to_uint p); congruence || reflexivity).
    rewrite Hs.
    pose proof (string_of_uint_digits (Pos.to_uint p)) as Hd.
    rewrite strip_no_space
      by (apply (all_chars_weaken is_digit); trivial;
          intros c Hc; rewrite (digit_not_space c Hc); reflexivity).
    destruct (NilEmpty.string_of_uint (Pos.to_uint p)) as [|c r] eqn:E.
    + destruct (Pos.to_uint p); simpl in E; congruence.
    + simpl in Hd. apply andb_true_iff in Hd as [Hc _].
      rewrite (digit_head_value c r Hc), <- E. apply digits_value_to_uint.
  - unfold Z_to_str, int_of_str. simpl Z.to_int. simpl NilZero.string_of_int.
    pose proof (DecimalPos.Unsigned.to_uint_nonnil p) as Hnil.
    assert (Hs : NilZero.string_of_uint (Pos.to_uint p)
                 = NilEmpty.string_of_uint (Pos.to_uint p))
      by (destruct (Pos.to_uint p); congruence || reflexivity).
    rewrite Hs.
    rewrite strip_no_space.
    + rewrite digits_value_to_uint. reflexivity.
    + simpl. apply (all_chars_weaken is_digit).
      * intros c Hc. rewrite (digit_not_space c Hc). reflexivity.
      * apply string_of_uint_digits.
Qed.

(** The text of an integer: digits after an optional minus sign. *)
Definition is_int_char (c : ascii) : bool := is_digit c || Ascii.eqb c "-".

Lemma Z_to_str_chars (n : Z) : all_chars is_int_char (Z_to_str n) = true.
Proof.
  assert (Hd : forall d, all_chars is_int_char (NilZero.string_of_uint d) = true).
  { intros d. destruct d; try reflexivity;
      apply (all_chars_weaken is_digit);
      try (intros c Hc; unfold is_int_char; rewrite Hc; reflexivity);
      apply (string_of_uint_digits (_ d)) || apply string_of_uint_digits. }
  destruct n as [|p|p]; unfold Z_to_str; simpl Z.to_int; simpl NilZero.string_of_int.
  - reflexivity.
  - apply Hd.
  - simpl. apply Hd.
Qed.

Lemma Z_to_str_nonempty (n : Z) : Z_to_str n <> "".
Proof.
  assert (Hd : forall d, NilZero.string_of_uint d <> "") by (intros []; discriminate).
  destruct n as [|p|p]; unfold Z_to_str; simpl Z.to_int; simpl NilZero.string_of_int;
    try discriminate.
  apply Hd.
Qed.

(* ================================================================== *)
(** * A float interface to run the code on                              *)
(* ================================================================== *)

(** The floats that hold an integer, and NaN: enough to run the code on
    examples.  [str] writes [75.0] and [nan], as Python does. *)
Module IntegralFloat.

Inductive t : Type :=
  | Num (n : Z)
  | NaN.

Definition to_bool (x : t) : bool :=
  match x with Num n => negb (n =? 0) | NaN => true end.

Definition lt0 (x : t) : bool :=
  match x with Num n => n <? 0 | NaN => false end.

Definition eqb (x y : t) : bool :=
  match x, y with Num n, Num m => n =? m | _, _ => false end.

Definition eqb_int (x : t) (m : Z) : bool :=
  match x with Num n => n =? m | NaN => false end.

Definition mul_int (x : t) (m : Z) : option t :=
  match x with Num n => Some (Num (n * m)) | NaN => Some NaN end.

Definition to_str (x : t) : string :=
  match x with Num n => Z_to_str n ++ ".0" | NaN => "nan" end.

Definition fmt2f (x : t) : string :=
  match x with Num n => Z_to_str n ++ ".00" | NaN => "nan" end.

(** The text before the first full stop, and the rest. *)
Fixpoint until_dot (s : string) : string * string :=
  match s with
  | EmptyString => (EmptyString, EmptyString)
  | String c r =>
      if Ascii.eqb c "." then (EmptyString, s)
      else let '(a, b) := until_dot r in (String c a, b)
  end.

Definition of_str (s : string) : option t :=
  if String.eqb s "nan" then Some NaN
  else
    let '(a, b) := until_dot s in
    if String.eqb b ".0" || String.eqb b "" then option_map Num (int_of_str a) else None.

Lemma until_dot_app (a : string) :
  all_chars is_int_char a = true -> until_dot (a ++ ".0") = (a, ".0").
Proof.
  induction a as [|c r IH]; simpl; trivial.
  intros Ha. apply andb_true_iff in Ha as [Hc Hr]. rewrite (IH Hr).
  destruct (Ascii.eqb_spec c ".") as [->|_]; [discriminate Hc | reflexivity].
Qed.

Lemma int_text_not_nan (a : string) :
  all_chars is_int_char a = true -> a <> "" -> String.eqb (a ++ ".0") "nan" = false.
Proof.
  destruct a as [|c r]; [congruence|]. simpl. intros Ha _.
  apply andb_true_iff in Ha as [Hc _].
  destruct (Ascii.eqb_spec c "n") as [->|_]; [discriminate Hc | reflexivity].
Qed.

Lemma of_str_to_str (x : t) : eqb x x = true -> of_str (to_str x) = Some x.
Proof.
  destruct x as [n|]; [intros _ | discriminate].
  unfold of_str, to_str.
  rewrite (int_text_not_nan _ (Z_to_str_chars n) (Z_to_str_nonempty n)).
  rewrite (until_dot_app _ (Z_to_str_chars n)). simpl.
  rewrite int_of_str_Z_to_str. reflexivity.
Qed.

Lemma mul_int_sign (x : t) (n : Z) (y : t) :
  lt0 x = false -> 0 < n -> mul_int x n = Some y -> lt0 y = false.
Proof.
  destruct x as [a|]; simpl; intros Hx Hn [= <-]; simpl; trivial.
  apply Z.ltb_ge in Hx. apply Z.ltb_ge. nia.
Qed.

Definition ops : PyFloat :=
  {| float := t;
     float_bool := to_bool;
     float_lt0 := lt0;
     float_eqb := eqb;
     float_eqb_int := eqb_int;
     float_mul_int := mul_int;
     float_str := to_str;
     float_of_str := of_str;
     float_fmt2f := fmt2f;
     float_mul_int_sign := mul_int_sign;
     float_of_str_str := of_str_to_str |}.

End IntegralFloat.

(* ================================================================== *)
(** * Facts about the data models                                       *)
(* ================================================================== *)

(** The goal's conjunctions and existentials, filled in from the context. *)
Ltac fill_in :=
  repeat match goal with
         | |- _ /\ _ => split
         | |- exists _, _ => eexists
         end;
  try reflexivity; try assumption.

(** Case analysis on each test of the chain of [if]s in [H]. *)
Ltac split_checks H :=
  repeat match type of H with
         | context [if ?c then _ else _] => destruct c eqn:?
         end.

Section DataModelFacts.
Context `{PyFloat}.

(** Every exception class of the model derives from [Exception]: an
    [except Exception] clause catches whatever is raised. *)
Lemma isinstance_Exception (e : exn) : isinstance e Exception = true.
Proof. destruct e as [[] msg]; reflexivity. Qed.

(** *** The four checks of the [__post_init__] methods *)

Lemma str_check_passes (v : pyval) :
  negb (truthy v) || negb (isinstance_str v) = false <-> exists s, v = VStr s /\ s <> "".
Proof.
  split.
  - destruct v; simpl; rewrite ?orb_true_r; try discriminate.
    rewrite orb_false_r, negb_involutive. intros Hs. exists s. split; trivial.
    intros ->. discriminate Hs.
  - intros (s & -> & Hs). simpl. rewrite orb_false_r, negb_involutive.
    apply String.eqb_neq, Hs.
Qed.

Lemma positive_int_check_passes (v : pyval) :
  negb (isinstance_int v) || le0 v = false <-> exists i, v = of_int i /\ 0 < int_val i.
Proof.
  split.
  - destruct v; simpl; try discriminate; unfold le0; simpl; intros Hv.
    + exists (IBool b). destruct b; [split; [reflexivity | simpl; lia] | discriminate].
    + exists (IInt n). split; trivial. simpl. apply Z.leb_gt, Hv.
  - intros ([n|b] & -> & Hi); simpl in *; unfold le0; simpl.
    + apply Z.leb_gt, Hi.
    + destruct b; [reflexivity | lia].
Qed.

Lemma nonneg_int_check_passes (v : pyval) :
  negb (isinstance_int v) || lt0 v = false <-> exists i, v = of_int i /\ 0 <= int_val i.
Proof.
  split.
  - destruct v; simpl; try discriminate; unfold lt0; simpl; intros Hv.
    + exists (IBool b). split; trivial. destruct b; simpl; lia.
    + exists (IInt n). split; trivial. simpl. apply Z.ltb_ge, Hv.
  - intros ([n|b] & -> & Hi); simpl in *; unfold lt0; simpl.
    + apply Z.ltb_ge, Hi.
    + destruct b; reflexivity.
Qed.

Lemma nonneg_number_check_passes (v : pyval) :
  negb (isinstance_int_float v) || lt0 v = false <-> exists x, v = of_num x /\ num_lt0 x = false.
Proof.
  split.
  - destruct v; simpl; try discriminate; unfold lt0; simpl; intros Hv.
    + exists (NInt (IBool b)). split; trivial.
    + exists (NInt (IInt n)). split; trivial.
    + exists (NFloat x). split; trivial.
  - intros ([[n|b]|x] & -> & Hx); simpl in *; unfold lt0; simpl; trivial.
Qed.

Lemma as_str_VStr (s : string) : as_str (VStr s) = Some s.
Proof. reflexivity. Qed.

Lemma as_int_of_int (i : pyint) : as_int (of_int i) = Some i.
Proof. destruct i; reflexivity. Qed.

Lemma as_num_of_num (x : pynum) : as_num (of_num x) = Some x.
Proof. destruct x as [[]|]; reflexivity. Qed.

Lemma of_int_inj (i j : pyint) : of_int i = of_int j -> i = j.
Proof. destruct i, j; simpl; congruence. Qed.

Lemma of_num_inj (x y : pynum) : of_num x = of_num y -> x = y.
Proof. destruct x as [[]|], y as [[]|]; simpl; congruence. Qed.

(** *** Product *)

Lemma Product_post_init_Ok (a b d e f : pyval) :
  Product.__post_init__ a b d e f = Ok tt <->
  (exists i, a = VStr i /\ i <> "") /\ (exists n, b = VStr n /\ n <> "")
  /\ (exists p, d = of_num p /\ num_lt0 p = false)
  /\ (exists s, e = of_int s /\ 0 <= int_val s)
  /\ (exists c, f = VStr c /\ c <> "").
Proof.
  unfold Product.__post_init__. split.
  - intros Hok. split_checks Hok; try discriminate Hok.
    repeat split;
      (apply str_check_passes || apply nonneg_number_check_passes
       || apply nonneg_int_check_passes); assumption.
  - intros (Ha & Hb & Hd & He & Hf).
    apply str_check_passes in Ha, Hb, Hf. apply nonneg_number_check_passes in Hd.
    apply nonneg_int_check_passes in He. rewrite Ha, Hb, Hd, He, Hf. reflexivity.
Qed.

Lemma Product_post_init_Raise (a b d e f : pyval) (ex : exn) :
  Product.__post_init__ a b d e f = Raise ex -> class_of ex = ValueError.
Proof.
  unfold Product.__post_init__, raise. intros Hr.
  split_checks Hr; inversion Hr; reflexivity.
Qed.

Lemma Product_new_Ok (a b : pyval) (desc : string) (d e f : pyval) (p : Product.t) :
  Product.new a b desc d e f = Ok p <->
  a = VStr (Product.product_id p) /\ Product.product_id p <> ""
  /\ b = VStr (Product.name p) /\ Product.name p <> ""
  /\ desc = Product.description p
  /\ d = of_num (Product.price p) /\ num_lt0 (Product.price p) = false
  /\ e = of_int (Product.stock_quantity p) /\ 0 <= int_val (Product.stock_quantity p)
  /\ f = VStr (Product.category p) /\ Product.category p <> "".
Proof.
  unfold Product.new, bind. split.
  - destruct (Product.__post_init__ a b d e f) as [[]|ex] eqn:Hpost; [|discriminate].
    apply Product_post_init_Ok in Hpost
      as ((i & -> & Hi) & (n & -> & Hn) & (x & -> & Hx) & (s & -> & Hs) & (c & -> & Hc)).
    simpl. rewrite as_num_of_num, as_int_of_int. intros [= <-]. simpl. tauto.
  - destruct p as [i n de x s c]. simpl.
    intros (-> & Hi & -> & Hn & -> & -> & Hx & -> & Hs & -> & Hc).
    assert (Hpost : Product.__post_init__ (VStr i) (VStr n) (of_num x) (of_int s) (VStr c)
                    = Ok tt) by (apply Product_post_init_Ok; fill_in).
    rewrite Hpost. simpl. rewrite as_num_of_num, as_int_of_int. reflexivity.
Qed.

Lemma Product_new_Raise (a b : pyval) (desc : string) (d e f : pyval) (ex : exn) :
  Product.new a b desc d e f = Raise ex -> class_of ex = ValueError.
Proof.
  unfold Product.new, bind.
  destruct (Product.__post_init__ a b d e f) as [[]|ex'] eqn:Hpost.
  - apply Product_post_init_Ok in Hpost
      as ((i & -> & Hi) & (n & -> & Hn) & (x & -> & Hx) & (s & -> & Hs) & (c & -> & Hc)).
    simpl. rewrite as_num_of_num, as_int_of_int. discriminate.
  - intros [= <-]. eapply Product_post_init_Raise, Hpost.
Qed.

(** *** Order *)

Lemma Order_post_init_Ok (a b c : pyval) :
  Order.__post_init__ a b c = Ok tt <->
  (exists i, a = VStr i /\ i <> "") /\ (exists q, b = of_int q /\ 0 < int_val q)
  /\ (exists d, c = VStr d /\ d <> "").
Proof.
  unfold Order.__post_init__. split.
  - intros Hok. split_checks Hok; try discriminate Hok.
    repeat split; (apply str_check_passes || apply positive_int_check_passes); assumption.
  - intros (Ha & Hb & Hc).
    apply str_check_passes in Ha, Hc. apply positive_int_check_passes in Hb.
    rewrite Ha, Hb, Hc. reflexivity.
Qed.

Lemma Order_new_Ok (a b c d : pyval) (o : Order.t) :
  Order.new a b c d = Ok o <->
  a = VStr (Order.product_id o) /\ Order.product_id o <> ""
  /\ b = of_int (Order.quantity o) /\ 0 < int_val (Order.quantity o)
  /\ c = VStr (Order.delivery_address o) /\ Order.delivery_address o <> ""
  /\ d = Order.product_name o.
Proof.
  unfold Order.new, bind. split.
  - destruct (Order.__post_init__ a b c) as [[]|ex] eqn:Hpost; [|discriminate].
    apply Order_post_init_Ok in Hpost as ((i & -> & Hi) & (q & -> & Hq) & (ad & -> & Had)).
    simpl. rewrite as_int_of_int. intros [= <-]. simpl. tauto.
  - destruct o as [i q ad pn]. simpl. intros (-> & Hi & -> & Hq & -> & Had & ->).
    assert (Hpost : Order.__post_init__ (VStr i) (of_int q) (VStr ad) = Ok tt)
      by (apply Order_post_init_Ok; fill_in).
    rewrite Hpost. simpl. rewrite as_int_of_int. reflexivity.
Qed.

Lemma Order_new_Raise (a b c d : pyval) (ex : exn) :
  Order.new a b c d = Raise ex ->
  class_of ex = ValueError
  /\ (Order.__post_init__ a b c = Raise ex).
Proof.
  unfold Order.new, bind.
  destruct (Order.__post_init__ a b c) as [[]|ex'] eqn:Hpost.
  - apply Order_post_init_Ok in Hpost as ((i & -> & Hi) & (q & -> & Hq) & (ad & -> & Had)).
    simpl. rewrite as_int_of_int. discriminate.
  - intros [= <-]. split; trivial. revert Hpost. unfold Order.__post_init__, raise.
    intros Hr. split_checks Hr; inversion Hr; reflexivity.
Qed.

(** *** StoredOrder *)

Lemma StoredOrder_post_init_Ok (a b c d e f : pyval) :
  StoredOrder.__post_init__ a b c d e f = Ok tt <->
  (exists o, a = VStr o /\ o <> "") /\ (exists i, b = VStr i /\ i <> "")
  /\ (exists n, c = VStr n /\ n <> "") /\ (exists q, d = of_int q /\ 0 < int_val q)
  /\ (exists ad, e = VStr ad /\ ad <> "")
  /\ (exists p, f = of_num p /\ num_lt0 p = false).
Proof.
  unfold StoredOrder.__post_init__. split.
  - intros Hok. split_checks Hok; try discriminate Hok.
    repeat split;
      (apply str_check_passes || apply positive_int_check_passes
       || apply nonneg_number_check_passes); assumption.
  - intros (Ha & Hb & Hc & Hd & He & Hf).
    apply str_check_passes in Ha, Hb, Hc, He. apply positive_int_check_passes in Hd.
    apply nonneg_number_check_passes in Hf. rewrite Ha, Hb, Hc, Hd, He, Hf. reflexivity.
Qed.

Lemma StoredOrder_new_Ok (a b c d e : pyval) (date : string) (f : pyval) (x : StoredOrder.t) :
  StoredOrder.new a b c d e date f = Ok x <->
  a = VStr (StoredOrder.order_id x) /\ StoredOrder.order_id x <> ""
  /\ b = VStr (StoredOrder.product_id x) /\ StoredOrder.product_id x <> ""
  /\ c = VStr (StoredOrder.product_name x) /\ StoredOrder.product_name x <> ""
  /\ d = of_int (StoredOrder.quantity x) /\ 0 < int_val (StoredOrder.quantity x)
  /\ e = VStr (StoredOrder.delivery_address x) /\ StoredOrder.delivery_address x <> ""
  /\ date = StoredOrder.order_date x
  /\ f = of_num (StoredOrder.total_price x) /\ num_lt0 (StoredOrder.total_price x) = false.
Proof.
  unfold StoredOrder.new, bind. split.
  - destruct (StoredOrder.__post_init__ a b c d e f) as [[]|ex] eqn:Hpost; [|discriminate].
    apply StoredOrder_post_init_Ok in Hpost
      as ((o & -> & Ho) & (i & -> & Hi) & (n & -> & Hn) & (q & -> & Hq)
          & (ad & -> & Had) & (p & -> & Hp)).
    simpl. rewrite as_num_of_num, as_int_of_int. intros [= <-]. simpl. tauto.
  - destruct x as [o i n q ad dt p]. simpl.
    intros (-> & Ho & -> & Hi & -> & Hn & -> & Hq & -> & Had & -> & -> & Hp).
    assert (Hpost : StoredOrder.__post_init__ (VStr o) (VStr i) (VStr n) (of_int q)
                      (VStr ad) (of_num p) = Ok tt)
      by (apply StoredOrder_post_init_Ok; fill_in).
    rewrite Hpost. simpl. rewrite as_num_of_num, as_int_of_int. reflexivity.
Qed.


End DataModelFacts.

(** ** The claims on the data models *)

Section DataModelClaims.
Context `{PyFloat}.

(** C3 (amended).  A [Product] is constructed exactly when [product_id], [name]
    and [category] are non-empty strings, [price] is a number that is not
    negative and [stock_quantity] is an integer that is not negative; every
    other choice of these five fields fails with [ValueError] ("InvalidInput").
    The description is not checked: any description is kept as given.  On the
    constructed product, [is_in_stock(n)] holds iff [stock_quantity >= n]. *)
Theorem Product_construction
    (product_id name : pyval) (description : string) (price stock_quantity category : pyval) :
  let stated_constraints :=
    nonempty_str product_id /\ nonempty_str name /\ nonneg_number price
    /\ nonneg_int stock_quantity /\ nonempty_str category in
  (stated_constraints ->
   exists p,
     Product.new product_id name description price stock_quantity category = Ok p
     /\ Product.description p = description
     /\ of_int (Product.stock_quantity p) = stock_quantity
     /\ forall n, Product.is_in_stock p n = true
                  <-> int_val (Product.stock_quantity p) >= int_val n)
  /\ (~ stated_constraints ->
      exists reason,
        Product.new product_id name description price stock_quantity category
        = Raise (mk_exn ValueError reason)).
Proof.
  cbv zeta. unfold nonempty_str, nonneg_number, nonneg_int. split.
  - intros ((i & -> & Hi) & (n & -> & Hn) & (x & -> & Hx) & (s & -> & Hs) & (c & -> & Hc)).
    exists (Product.mk i n description x s c). repeat split.
    + apply Product_new_Ok. simpl. tauto.
    + unfold Product.is_in_stock. simpl. intros Hge. apply Z.geb_le in Hge. lia.
    + unfold Product.is_in_stock. simpl. intros Hge. apply Z.geb_le. lia.
  - intros Hnot.
    destruct (Product.new product_id name description price stock_quantity category)
      as [p|[cls reason]] eqn:Hnew.
    + exfalso. apply Hnot. apply Product_new_Ok in Hnew.
      destruct Hnew as (-> & Hi & -> & Hn & _ & -> & Hx & -> & Hs & -> & Hc). fill_in.
    + apply Product_new_Raise in Hnew as Hcls. simpl in Hcls. subst cls.
      exists reason. reflexivity.
Qed.



End DataModelClaims.

(* ================================================================== *)
(** * Facts about the order processor                                   *)
(* ================================================================== *)

Section DictFacts.
Context {V : Type}.

Lemma get_set_same (d : dict V) (k : string) (v : V) : get (set d k v) k = Some v.
Proof.
  induction d as [|[k' v'] r IH]; simpl.
  - rewrite String.eqb_refl. reflexivity.
  - destruct (String.eqb_spec k' k) as [->|Hne]; simpl.
    + rewrite String.eqb_refl. reflexivity.
    + apply String.eqb_neq in Hne. rewrite Hne. exact IH.
Qed.

Lemma get_set_other (d : dict V) (k k' : string) (v : V) :
  k' <> k -> get (set d k v) k' = get d k'.
Proof.
  intros Hne. induction d as [|[k0 v0] r IH]; simpl.
  - destruct (String.eqb_spec k k'); congruence.
  - destruct (String.eqb_spec k0 k) as [->|Hk]; simpl.
    + destruct (String.eqb_spec k k'); congruence.
    + destruct (String.eqb_spec k0 k'); congruence.
Qed.

(** An assignment to a key of [d] keeps the keys and their order. *)
Lemma keys_set (d : dict V) (k : string) (v v' : V) :
  get d k = Some v' -> map fst (set d k v) = map fst d.
Proof.
  induction d as [|[k0 v0] r IH]; simpl; [discriminate|].
  destruct (String.eqb_spec k0 k) as [->|Hk]; simpl; intros Hg.
  - reflexivity.
  - rewrite (IH Hg). reflexivity.
Qed.

End DictFacts.

Section OrderProcessorFacts.
Context `{PyFloat}.


(** The name [from_order] stores: the one the order carries when it is true
    (a string that is not empty), the product's own otherwise. *)
Definition stored_name (product_name : pyval) (product : Product.t) : pyval :=
  if truthy product_name then product_name else VStr (Product.name product).

Definition generated_id (clock : Clock) : string :=
  "ORD" ++ upper (take 6 (uuid4_hex clock)).

Definition chosen_id (clock : Clock) (order_id : option string) : string :=
  match order_id with
  | None => generated_id clock
  | Some given => given
  end.


(** [from_order] succeeds exactly when the product is priced and the record
    passes its checks, and then the record is made of these fields. *)
Lemma from_order_Ok (clock : Clock) (order : Order.t) (product : Product.t)
    (order_id : option string) (x : StoredOrder.t) :
  StoredOrder.from_order clock order product order_id = Ok x <->
  exists total,
    num_mul_int (Product.price product) (Order.quantity order) = Ok total
    /\ StoredOrder.new (VStr (chosen_id clock order_id)) (VStr (Order.product_id order))
         (stored_name (Order.product_name order) product)
         (of_int (Order.quantity order)) (VStr (Order.delivery_address order))
         (now_date clock) (of_num total) = Ok x.
Proof.
  unfold StoredOrder.from_order, bind, stored_name, chosen_id, generated_id.
  destruct (num_mul_int (Product.price product) (Order.quantity order)) as [total|e].
  - split.
    + intros Hx. exists total. split; trivial.
    + intros (t & [= <-] & Hx). exact Hx.
  - split; [discriminate|]. intros (t & Hd & _). discriminate Hd.
Qed.


(** The answer of [validate_product_availability] for a product of the
    table: valid exactly when the stock covers the quantity. *)
Lemma validate_known (self : OrderProcessor.t) (pid : string) (quantity : pyint)
    (product : Product.t) :
  get (OrderProcessor.products self) pid = Some product ->
  fst (fst (OrderProcessor.validate_product_availability self pid quantity))
  = (int_val quantity <=? int_val (Product.stock_quantity product))
  /\ snd (OrderProcessor.validate_product_availability self pid quantity) = Some product.
Proof.
  intros Hget. unfold OrderProcessor.validate_product_availability. rewrite Hget.
  unfold Product.is_in_stock. rewrite Z.geb_leb.
  destruct (int_val quantity <=? int_val (Product.stock_quantity product)); simpl; split;
    reflexivity.
Qed.


Lemma validate_unknown (self : OrderProcessor.t) (pid : string) (quantity : pyint) :
  get (OrderProcessor.products self) pid = None ->
  fst (fst (OrderProcessor.validate_product_availability self pid quantity)) = false.
Proof.
  intros Hget. unfold OrderProcessor.validate_product_availability. rewrite Hget.
  reflexivity.
Qed.

(** What the [try] block returns without raising: a failure that leaves the
    processor as it was, or the success of an appended order. *)
Lemma process_order_try_Ok (self : OrderProcessor.t) (env : OrderProcessor.Env)
    (a b c d : pyval) (result : OrderProcessor.Result) (self' : OrderProcessor.t) :
  OrderProcessor.process_order_try self env a b c d = Ok (result, self') ->
  (exists message, result = OrderProcessor.failure message /\ self' = self)
  \/ (exists order product stored,
         Order.new a b c d = Ok order
         /\ OrderProcessor.validate_product_availability self
              (Order.product_id order) (Order.quantity order)
            = (true, "Product available", Some product)
         /\ (truthy d = false
             \/ exists s, d = VStr s /\ lower s = lower (Product.name product))
         /\ StoredOrder.from_order (OrderProcessor.clock env) order product None = Ok stored
         /\ OrderProcessor.csv_append_ok env = true
         /\ OrderProcessor.success result = true
         /\ OrderProcessor.order_id result = Some (StoredOrder.order_id stored)
         /\ OrderProcessor.total_price result = Some (StoredOrder.total_price stored)
         /\ OrderProcessor.message result
            = "Order " ++ StoredOrder.order_id stored ++ " placed successfully for "
              ++ Product.name product
         /\ self' = OrderProcessor.decrement_stock
                      (OrderProcessor.mk (OrderProcessor.products self)
                         (OrderProcessor.orders_csv self ++ [StoredOrder.to_csv_row stored]))
                      (Order.product_id order) product (Order.quantity order)).
Proof.
  unfold OrderProcessor.process_order_try, bind.
  destruct (Order.new a b c d) as [order|e] eqn:Hnew; [|discriminate].
  destruct (OrderProcessor.validate_product_availability self
              (Order.product_id order) (Order.quantity order))
    as [[is_valid message] product] eqn:Hval.
  destruct is_valid; simpl; [|intros [= <- <-]; left; eexists; split; reflexivity].
  destruct product as [product|]; [|discriminate].
  assert (Hmsg : message = "Product available").
  { revert Hval. unfold OrderProcessor.validate_product_availability.
    repeat break_match; intros [= ]; subst; reflexivity. }
  subst message.
  destruct (truthy d) eqn:Htruthy.
  - destruct d; try discriminate. simpl.
    destruct (String.eqb_spec (lower s) (lower (Product.name product))) as [Hsame|_]; simpl;
      [|intros [= <- <-]; left; eexists; split; reflexivity].
    destruct (StoredOrder.from_order (OrderProcessor.clock env) order product None)
      as [stored|e] eqn:Hfrom; [|discriminate].
    unfold OrderProcessor.save_order_to_csv.
    destruct (OrderProcessor.csv_append_ok env) eqn:Happend;
      [|intros [= <- <-]; left; eexists; split; reflexivity].
    intros [= <- <-]. right. exists order, product, stored. simpl.
    repeat split; trivial. right. exists s. split; trivial.
  - simpl.
    destruct (StoredOrder.from_order (OrderProcessor.clock env) order product None)
      as [stored|e] eqn:Hfrom; [|discriminate].
    unfold OrderProcessor.save_order_to_csv.
    destruct (OrderProcessor.csv_append_ok env) eqn:Happend;
      [|intros [= <- <-]; left; eexists; split; reflexivity].
    intros [= <- <-]. right. exists order, product, stored. simpl.
    repeat split; trivial. left. reflexivity.
Qed.

End OrderProcessorFacts.

(** ** The claims on the order processor *)

Section OrderProcessorClaims.
Context `{PyFloat}.

Lemma isinstance_ValueError (e : exn) : class_of e = ValueError -> isinstance e ValueError = true.
Proof. destruct e as [cls msg]. simpl. intros ->. reflexivity. Qed.

Lemma process_order_try_invalid (self : OrderProcessor.t) (env : OrderProcessor.Env)
    (a b c d : pyval) (e : exn) :
  Order.new a b c d = Raise e ->
  OrderProcessor.process_order_try self env a b c d = Raise e.
Proof. intros Hnew. unfold OrderProcessor.process_order_try, bind. rewrite Hnew. reflexivity. Qed.


(** C2.  [process_order] never raises.  It returns a failure (no success, no
    order id, no total price) and leaves the processor as it was, or it returns
    a success, and then the ledger could be appended to and has grown by one
    row.  Each of the failures is answered by a failure: order fields the
    [Order] constructor refuses, an unknown product id, a stock below the
    quantity, a product name that differs beyond letter case, and a ledger that
    cannot be appended to. *)
Theorem process_order_never_raises
    (self : OrderProcessor.t) (env : OrderProcessor.Env) (a b c d : pyval) :
  exists result,
    fst (OrderProcessor.process_order self env a b c d) = Ok result
    /\ ((OrderProcessor.success result = false
         /\ OrderProcessor.order_id result = None
         /\ OrderProcessor.total_price result = None
         /\ snd (OrderProcessor.process_order self env a b c d) = self)
        \/ (OrderProcessor.success result = true
            /\ OrderProcessor.csv_append_ok env = true
            /\ exists row,
                 OrderProcessor.orders_csv (snd (OrderProcessor.process_order self env a b c d))
                 = (OrderProcessor.orders_csv self ++ [row])%list))
    /\ (forall e, Order.new a b c d = Raise e ->
          result = OrderProcessor.failure ("Invalid order data: " ++ str_of e))
    /\ (forall order, Order.new a b c d = Ok order ->
          (get (OrderProcessor.products self) (Order.product_id order) = None ->
           OrderProcessor.success result = false)
          /\ (forall product,
                get (OrderProcessor.products self) (Order.product_id order) = Some product ->
                int_val (Product.stock_quantity product) < int_val (Order.quantity order) ->
                OrderProcessor.success result = false)
          /\ (forall product s,
                get (OrderProcessor.products self) (Order.product_id order) = Some product ->
                d = VStr s -> s <> "" -> lower s <> lower (Product.name product) ->
                OrderProcessor.success result = false)
          /\ (OrderProcessor.csv_append_ok env = false ->
              OrderProcessor.success result = false)).
Proof.
  unfold OrderProcessor.process_order.
  destruct (OrderProcessor.process_order_try self env a b c d) as [[result self']|e] eqn:Htry.
  - exists result. simpl. split; trivial.
    assert (Hvalid : forall e, Order.new a b c d <> Raise e).
    { intros e He. rewrite (process_order_try_invalid self env a b c d e He) in Htry.
      discriminate Htry. }
    apply process_order_try_Ok in Htry
      as [(message & -> & ->)
         |(order & product & stored & Hnew & Hval & Hname & Hfrom & Happend & Hsuccess
           & Hid & Htotal & Hmessage & ->)].
    + simpl. repeat split; trivial.
      * left. repeat split; reflexivity.
      * intros e He. destruct (Hvalid e He).
    + split; [|split; [|intros order' Hnew'; rewrite Hnew in Hnew'; inv Hnew'; repeat split]].
      * right. split; trivial. split; trivial.
        exists (StoredOrder.to_csv_row stored). reflexivity.
      * intros e He. destruct (Hvalid e He).
      * intros Hnone.
        pose proof (validate_unknown self _ (Order.quantity order') Hnone) as Hu.
        rewrite Hval in Hu. discriminate Hu.
      * intros product' Hget Hless.
        destruct (validate_known self _ (Order.quantity order') _ Hget) as [Hv _].
        rewrite Hval in Hv. simpl in Hv. symmetry in Hv. apply Z.leb_le in Hv. lia.
      * intros product' s Hget -> Hs Hlow.
        destruct (validate_known self _ (Order.quantity order') _ Hget) as [_ Hp].
        rewrite Hval in Hp. simpl in Hp. inv Hp.
        destruct Hname as [Hfalse | (s' & [= <-] & Hsame)].
        -- simpl in Hfalse. apply negb_false_iff, String.eqb_eq in Hfalse. contradiction.
        -- contradiction.
      * intros Hno. congruence.
  - assert (Hcaught : exists message,
               (if isinstance e ValueError
                then (Ok (OrderProcessor.failure ("Invalid order data: " ++ str_of e)), self)
                else if isinstance e Exception
                     then (Ok (OrderProcessor.failure
                                 "An unexpected error occurred while processing your order. Please try again."),
                           self)
                     else (Raise e, self))
               = (Ok (OrderProcessor.failure message), self)
               /\ (isinstance e ValueError = true -> message = "Invalid order data: " ++ str_of e)).
    { destruct (isinstance e ValueError).
      - eexists. split; [reflexivity | trivial].
      - rewrite isinstance_Exception. eexists. split; [reflexivity | discriminate]. }
    destruct Hcaught as (message & -> & Hmessage).
    exists (OrderProcessor.failure message). simpl. repeat split; trivial.
    + left. repeat split; reflexivity.
    + intros e' He'. rewrite (process_order_try_invalid self env a b c d e' He') in Htry.
      inv Htry. apply Order_new_Raise in He' as [Hcls _].
      rewrite (Hmessage (isinstance_ValueError e Hcls)). reflexivity.
Qed.

(** C10 (amended).  [from_order] stores the product name the order carries
    when that name is a non-empty string, and the catalog name when the order
    carries no name or an empty one.  A successful [process_order] with a
    supplied name therefore writes the supplied spelling to the ledger, which
    agrees with the catalog name up to letter case only: for one product id the
    two can differ, as they do for [oak chair] ordered against [Oak Chair]. *)
Theorem from_order_stores_supplied_name :
  (forall clock order product order_id stored s,
      Order.product_name order = VStr s -> s <> "" ->
      StoredOrder.from_order clock order product order_id = Ok stored ->
      StoredOrder.product_name stored = s)
  /\ (forall clock order product order_id stored,
         truthy (Order.product_name order) = false ->
         StoredOrder.from_order clock order product order_id = Ok stored ->
         StoredOrder.product_name stored = Product.name product)
  /\ (forall self env a b c s result self',
         OrderProcessor.process_order self env a b c (VStr s) = (Ok result, self') ->
         OrderProcessor.success result = true -> s <> "" ->
         exists pid product stored,
           a = VStr pid
           /\ get (OrderProcessor.products self) pid = Some product
           /\ lower s = lower (Product.name product)
           /\ StoredOrder.product_name stored = s
           /\ OrderProcessor.orders_csv self'
              = (OrderProcessor.orders_csv self ++ [StoredOrder.to_csv_row stored])%list)
  /\ (let chair := Product.mk "P001" "Oak Chair" "A chair of oak" (NInt (IInt 25)) (IInt 5)
                     "Furniture" in
      let self := OrderProcessor.mk [("P001", chair)] [] in
      let env := OrderProcessor.mk_env (mk_clock "0a1b2c3d4e5f" "2024-05-01") true in
      exists result self',
        OrderProcessor.process_order self env (VStr "P001") (VInt 1) (VStr "12 Main St")
          (VStr "oak chair") = (Ok result, self')
        /\ OrderProcessor.success result = true
        /\ OrderProcessor.orders_csv self'
           = [["ORD0A1B2C"; "P001"; "oak chair"; "1"; "12 Main St"; "2024-05-01"; "25"]]
        /\ "oak chair" <> Product.name chair).
Proof.
  repeat split.
  - intros clock order product order_id stored s Hs Hne Hfrom.
    apply from_order_Ok in Hfrom as (total & _ & Hnew).
    apply StoredOrder_new_Ok in Hnew as (_ & _ & _ & _ & Hname & _).
    unfold stored_name in Hname. rewrite Hs in Hname. simpl in Hname.
    apply String.eqb_neq in Hne. rewrite Hne in Hname. simpl in Hname. congruence.
  - intros clock order product order_id stored Hfalse Hfrom.
    apply from_order_Ok in Hfrom as (total & _ & Hnew).
    apply StoredOrder_new_Ok in Hnew as (_ & _ & _ & _ & Hname & _).
    unfold stored_name in Hname. rewrite Hfalse in Hname. congruence.
  - intros self env a b c s result self' Hrun Hsuccess Hne.
    unfold OrderProcessor.process_order in Hrun.
    destruct (OrderProcessor.process_order_try self env a b c (VStr s))
      as [[result0 self0]|e] eqn:Htry.
    + inv Hrun.
      apply process_order_try_Ok in Htry
        as [(message & -> & ->)
           |(order & product & stored & Hnew & Hval & Hname & Hfrom & _ & _ & _ & _ & _ & ->)];
        [discriminate Hsuccess|].
      apply Order_new_Ok in Hnew as Hfields.
      destruct Hfields as (-> & _ & _ & _ & _ & _ & Hpn).
      exists (Order.product_id order), product, stored.
      assert (Hget : get (OrderProcessor.products self) (Order.product_id order) = Some product).
      { revert Hval. unfold OrderProcessor.validate_product_availability.
        destruct (get (OrderProcessor.products self) (Order.product_id order)) as [p|];
          [|discriminate].
        destruct (negb (Product.is_in_stock p (Order.quantity order))); [discriminate|].
        congruence. }
      destruct Hname as [Hfalse | (s' & [= <-] & Hsame)].
      { simpl in Hfalse. apply negb_false_iff, String.eqb_eq in Hfalse. contradiction. }
      repeat split; trivial.
      apply from_order_Ok in Hfrom as (total & _ & Hstored).
      apply StoredOrder_new_Ok in Hstored as (_ & _ & _ & _ & Hsn & _).
      unfold stored_name in Hsn. rewrite <- Hpn in Hsn. simpl in Hsn.
      apply String.eqb_neq in Hne. rewrite Hne in Hsn. simpl in Hsn. congruence.
    + destruct (isinstance e ValueError); [inv Hrun; discriminate Hsuccess|].
      destruct (isinstance e Exception); inv Hrun. discriminate Hsuccess.
  - cbv zeta. eexists. eexists. split; [reflexivity|]. repeat split. discriminate.
Qed.

End OrderProcessorClaims.

(* ================================================================== *)
(** * Facts about the retry loop of the LLM service client              *)
(* ================================================================== *)

Section RetryFacts.
Context {Payload Json : Type}.
Import SarvamLLMService.

Local Abbreviation World := (SarvamLLMService.World Payload Json).
Local Abbreviation Response := (SarvamLLMService.Response Json).

(** The world after one more call of [session.post], and after a sleep. *)
Definition posted (w : World) : World := mk_world (server w) (S (posts w)) (slept w).

Definition waited (seconds : Z) (w : World) : World :=
  mk_world (server w) (posts w) (slept w ++ [seconds]).

Lemma handlers_world (self : SarvamConfig) (attempt : Z) (e : exn) (last : option exn)
    (w : World) :
  snd (handlers self attempt e last w) = w
  \/ (attempt < max_retries self
      /\ snd (handlers self attempt e last w) = waited (2 ^ attempt) w).
Proof.
  unfold handlers, _wait_with_backoff, time_sleep, waited.
  destruct (Z.ltb_spec attempt (max_retries self)) as [Hlt|Hge];
    repeat break_match; simpl; auto.
Qed.

(** One round makes exactly one call, and sleeps at most once: [2 ^ attempt]
    seconds, and only when another attempt is left. *)
Lemma attempt_once_world (self : SarvamConfig) (payload : Payload) (attempt : Z)
    (last : option exn) (w : World) :
  snd (attempt_once self payload attempt last w) = posted w
  \/ (attempt < max_retries self
      /\ snd (attempt_once self payload attempt last w) = waited (2 ^ attempt) (posted w)).
Proof.
  unfold attempt_once, session_post. fold (posted w).
  destruct (Z.ltb_spec attempt (max_retries self)) as [Hlt|Hge];
    repeat match goal with
           | |- context [handlers ?s ?a ?e ?l ?w'] =>
               let Hw := fresh "Hw" in
               destruct (handlers_world s a e l w') as [Hw | [? Hw]];
               destruct (handlers s a e l w') as [[? ?] ?]; simpl in Hw; subst
           | |- context [match ?x with _ => _ end] => destruct x eqn:?
           end;
    simpl; unfold _wait_with_backoff, time_sleep, waited; simpl; auto; lia.
Qed.

Lemma loop_posts (self : SarvamConfig) (payload : Payload) (attempts : list Z)
    (last : option exn) (w : World) :
  (posts (snd (loop self payload attempts last w)) <= posts w + List.length attempts)%nat.
Proof.
  revert last w. induction attempts as [|attempt rest IH]; intros last w; simpl.
  - lia.
  - pose proof (attempt_once_world self payload attempt last w) as Hw.
    destruct (attempt_once self payload attempt last w) as [[how last'] w'].
    simpl in Hw.
    assert (Hposts : posts w' = S (posts w)) by (destruct Hw as [-> | [_ ->]]; reflexivity).
    destruct how; simpl; try lia.
    specialize (IH last' w'). lia.
Qed.

Lemma range_length (n : Z) : List.length (range n) = Z.to_nat n.
Proof. unfold range. rewrite length_map, length_seq. reflexivity. Qed.

Lemma range_three (n : Z) :
  3 <= n -> exists rest, range n = 0 :: 1 :: 2 :: rest.
Proof.
  intros Hn. unfold range.
  destruct (Z.to_nat n) as [|[|[|m]]] eqn:Hm; try lia.
  eexists. reflexivity.
Qed.

(** A response with status 401 ends the call at once. *)
Lemma loop_401 (self : SarvamConfig) (payload : Payload) (attempt : Z) (rest : list Z)
    (last : option exn) (w : World) (response : Response) :
  server w (posts w) payload = Ok response ->
  status_code response = 401 ->
  loop self payload (attempt :: rest) last w
  = (Raise (mk_exn Exception "Authentication failed. Please check your SARVAM_API_KEY."),
     posted w).
Proof.
  intros Hpost Hstatus. simpl. unfold attempt_once, session_post.
  rewrite Hpost, Hstatus. reflexivity.
Qed.

(** A response with status 429 or 5xx, with another attempt left: the client
    sleeps [2 ^ attempt] seconds and goes on to the next attempt. *)
Lemma loop_retryable (self : SarvamConfig) (payload : Payload) (attempt : Z) (rest : list Z)
    (last : option exn) (w : World) (response : Response) :
  server w (posts w) payload = Ok response ->
  status_code response = 429 \/ 500 <= status_code response < 600 ->
  attempt < max_retries self ->
  loop self payload (attempt :: rest) last w
  = loop self payload rest last (waited (2 ^ attempt) (posted w)).
Proof.
  intros Hpost Hstatus Hleft. simpl. unfold attempt_once, session_post.
  rewrite Hpost. apply Z.ltb_lt in Hleft.
  destruct Hstatus as [-> | [Hlo Hhi]].
  - simpl. rewrite Hleft. reflexivity.
  - destruct (Z.eqb_spec (status_code response) 200); [lia|].
    destruct (Z.eqb_spec (status_code response) 401); [lia|].
    destruct (Z.eqb_spec (status_code response) 429).
    + rewrite Hleft. reflexivity.
    + apply Z.leb_le in Hlo. apply Z.ltb_lt in Hhi. rewrite Hlo, Hhi, Hleft. reflexivity.
Qed.

(** The same response on the last attempt: the call fails without a sleep. *)
Lemma loop_retryable_last (self : SarvamConfig) (payload : Payload) (attempt : Z)
    (rest : list Z) (last : option exn) (w : World) (response : Response) :
  server w (posts w) payload = Ok response ->
  status_code response = 429 \/ 500 <= status_code response < 600 ->
  max_retries self <= attempt ->
  exists reason,
    loop self payload (attempt :: rest) last w = (Raise (mk_exn Exception reason), posted w).
Proof.
  intros Hpost Hstatus Hlast. simpl. unfold attempt_once, session_post.
  rewrite Hpost. apply Z.ltb_ge in Hlast.
  destruct Hstatus as [-> | [Hlo Hhi]].
  - simpl. rewrite Hlast. eexists. reflexivity.
  - destruct (Z.eqb_spec (status_code response) 200); [lia|].
    destruct (Z.eqb_spec (status_code response) 401); [lia|].
    destruct (Z.eqb_spec (status_code response) 429).
    + rewrite Hlast. eexists. reflexivity.
    + apply Z.leb_le in Hlo. apply Z.ltb_lt in Hhi. rewrite Hlo, Hhi, Hlast.
      eexists. reflexivity.
Qed.

(** A response with status 200 whose body decodes ends the call with the body. *)
Lemma loop_200 (self : SarvamConfig) (payload : Payload) (attempt : Z) (rest : list Z)
    (last : option exn) (w : World) (response : Response) (data : Json) :
  server w (posts w) payload = Ok response ->
  status_code response = 200 ->
  json response = Ok data ->
  loop self payload (attempt :: rest) last w = (Ok data, posted w).
Proof.
  intros Hpost Hstatus Hjson. simpl. unfold attempt_once, session_post.
  rewrite Hpost, Hstatus, Hjson. reflexivity.
Qed.

(** A body that does not decode, on a response with status 200.  When
    [response.json()] raises the plain [json.JSONDecodeError], the last
    [except] clause ends the loop. *)
Lemma loop_json_decode_error (self : SarvamConfig) (payload : Payload) (attempt : Z)
    (rest : list Z) (last : option exn) (w : World) (response : Response) (reason : string) :
  server w (posts w) payload = Ok response ->
  status_code response = 200 ->
  json response = Raise (mk_exn JSONDecodeError reason) ->
  loop self payload (attempt :: rest) last w
  = (Raise (mk_exn JSONDecodeError reason), posted w).
Proof.
  intros Hpost Hstatus Hjson. simpl. unfold attempt_once, session_post.
  rewrite Hpost, Hstatus, Hjson. reflexivity.
Qed.

(** When it raises the [JSONDecodeError] of [requests], the clause for
    [RequestException] catches it first: the client sleeps and tries again. *)
Lemma loop_requests_json_decode_error (self : SarvamConfig) (payload : Payload) (attempt : Z)
    (rest : list Z) (last : option exn) (w : World) (response : Response) (reason : string) :
  server w (posts w) payload = Ok response ->
  status_code response = 200 ->
  json response = Raise (mk_exn Requests_JSONDecodeError reason) ->
  attempt < max_retries self ->
  loop self payload (attempt :: rest) last w
  = loop self payload rest (Some (mk_exn Requests_JSONDecodeError reason))
      (waited (2 ^ attempt) (posted w)).
Proof.
  intros Hpost Hstatus Hjson Hleft. simpl. unfold attempt_once, session_post.
  rewrite Hpost, Hstatus, Hjson. simpl. unfold handlers. simpl.
  apply Z.ltb_lt in Hleft. rewrite Hleft. reflexivity.
Qed.

(** C5.  The client makes at most [max_retries + 1] attempts (the length of
    [range(max_retries + 1)]).  A response 401 fails at once: no sleep, no
    further attempt.  A response 429 or 5xx on attempt [n], with an attempt
    left, is followed by a sleep of [2 ^ n] seconds and the next attempt.  With
    [max_retries = 3] and every response a 500 the client makes exactly four
    attempts, sleeping 1, 2 and 4 seconds, and fails; on the responses 429,
    429, 200 it sleeps 1 then 2 seconds and returns the body of the third. *)
Theorem make_request_with_retry_protocol :
  (forall (self : SarvamConfig) (payload : Payload) (w : World),
      (posts (snd (_make_request_with_retry self payload w))
       <= posts w + Z.to_nat (max_retries self + 1))%nat)
  /\ (forall self payload attempt rest last (w : World) response,
         server w (posts w) payload = Ok response ->
         status_code response = 401 ->
         exists reason,
           loop self payload (attempt :: rest) last w
           = (Raise (mk_exn Exception reason), posted w))
  /\ (forall self payload attempt rest last (w : World) response,
         server w (posts w) payload = Ok response ->
         status_code response = 429 \/ 500 <= status_code response < 600 ->
         attempt < max_retries self ->
         loop self payload (attempt :: rest) last w
         = loop self payload rest last (waited (2 ^ attempt) (posted w)))
  /\ (forall self payload (w : World),
         max_retries self = 3 ->
         (forall k, exists response,
               server w k payload = Ok response /\ status_code response = 500) ->
         _make_request_with_retry self payload w
         = (Raise (mk_exn Exception "Server error 500 after all retries"),
            mk_world (server w) (posts w + 4) (slept w ++ [1; 2; 4])))
  /\ (forall self payload (w : World) r0 r1 r2 body,
         2 <= max_retries self ->
         server w (posts w) payload = Ok r0 -> status_code r0 = 429 ->
         server w (S (posts w)) payload = Ok r1 -> status_code r1 = 429 ->
         server w (S (S (posts w))) payload = Ok r2 -> status_code r2 = 200 ->
         json r2 = Ok body ->
         _make_request_with_retry self payload w
         = (Ok body, mk_world (server w) (posts w + 3) (slept w ++ [1; 2]))).
Proof.
  split; [|split; [|split; [|split]]].
  - intros self payload w. unfold _make_request_with_retry.
    rewrite <- range_length. apply loop_posts.
  - intros self payload attempt rest last w response Hpost Hstatus.
    eexists. eapply loop_401; eassumption.
  - intros self payload attempt rest last w response. apply loop_retryable.
  - intros self payload w Hmax Hserver. unfold _make_request_with_retry. rewrite Hmax.
    change (range (3 + 1)) with [0; 1; 2; 3].
    destruct (Hserver (posts w)) as (r0 & Hr0 & Hs0).
    destruct (Hserver (S (posts w))) as (r1 & Hr1 & Hs1).
    destruct (Hserver (S (S (posts w)))) as (r2 & Hr2 & Hs2).
    destruct (Hserver (S (S (S (posts w))))) as (r3 & Hr3 & Hs3).
    rewrite (loop_retryable self payload 0 _ None w r0 Hr0) by lia.
    rewrite (loop_retryable self payload 1 _ None (waited (2 ^ 0) (posted w)) r1 Hr1) by lia.
    rewrite (loop_retryable self payload 2 _ None
               (waited (2 ^ 1) (posted (waited (2 ^ 0) (posted w)))) r2 Hr2) by lia.
    simpl. unfold attempt_once, session_post. simpl. rewrite Hr3, Hs3, Hmax. simpl.
    unfold waited, posted. simpl. rewrite <- !app_assoc. simpl.
    replace (posts w + 4)%nat with (S (S (S (S (posts w))))) by lia. reflexivity.
  - intros self payload w r0 r1 r2 body Hmax Hr0 Hs0 Hr1 Hs1 Hr2 Hs2 Hbody.
    unfold _make_request_with_retry.
    destruct (range_three (max_retries self + 1)) as (rest & ->); [lia|].
    rewrite (loop_retryable self payload 0 _ None w r0 Hr0) by lia.
    rewrite (loop_retryable self payload 1 _ None (waited (2 ^ 0) (posted w)) r1 Hr1) by lia.
    rewrite (loop_200 self payload 2 _ None
               (waited (2 ^ 1) (posted (waited (2 ^ 0) (posted w)))) r2 body Hr2 Hs2 Hbody).
    unfold waited, posted. simpl. rewrite <- !app_assoc. simpl.
    replace (posts w + 3)%nat with (S (S (S (posts w)))) by lia. reflexivity.
Qed.

End RetryFacts.

(* ================================================================== *)
(** * Facts about the answers of the RAG engine                         *)
(* ================================================================== *)



Section EnumerateFacts.
Context {A : Type}.




End EnumerateFacts.

Section RAGFacts.
Context `{PyFloat}.
Import RAGEngine.








End RAGFacts.

(* ================================================================== *)
(** * Facts about the order placement tool and the network route        *)
(* ================================================================== *)

Section ToolFacts.
Context {P R : Type}.
Context `{PyFloat}.

(** Whatever the order processor returns, the tool returns that object. *)
Lemma order_tool_returns_result
    (call : P -> pyval -> pyval -> pyval -> pyval -> res R * P) (processor processor' : P)
    (a b c d : pyval) (result : R) :
  call processor a b c d = (Ok result, processor') ->
  LlamaIndexAgent.process_order call processor a b c d
  = (Ok (LlamaIndexAgent.Dictionary result), processor').
Proof. intros Hcall. unfold LlamaIndexAgent.process_order. rewrite Hcall. reflexivity. Qed.

(** An exception of the order processor is answered by an apology that
    carries its text. *)
Lemma order_tool_apologises
    (call : P -> pyval -> pyval -> pyval -> pyval -> res R * P) (processor processor' : P)
    (a b c d : pyval) (e : exn) :
  call processor a b c d = (Raise e, processor') ->
  LlamaIndexAgent.process_order call processor a b c d
  = (Ok (LlamaIndexAgent.Text
           ("I'm sorry, I encountered an error while placing your order: " ++ str_of e)),
     processor').
Proof.
  intros Hcall. unfold LlamaIndexAgent.process_order.
  rewrite Hcall, isinstance_Exception. reflexivity.
Qed.

End ToolFacts.

Section RouteFacts.
Import ChatInterface.

(** The calls a request makes when the assistant is reached at all. *)
Lemma response_endpoint_calls (assistant : Assistant) (request : APIInput) :
  snd (response_endpoint assistant request) = []
  \/ password request = "abcd1234".
Proof.
  unfold response_endpoint.
  destruct (String.eqb_spec (password request) "abcd1234") as [Heq|Hne]; simpl; auto.
Qed.

(** C9.  A request whose password is not [abcd1234] gets the rejection
    payload, and makes no call on the assistant: no [ChatInterface] is
    constructed and [chat] is not called.  A request with that password
    constructs the assistant and forwards the query to [chat] once; the answer
    comes back under the key [result].  Any call on the assistant shows that
    the password was the secret. *)
Theorem respond_route_checks_password :
  (forall assistant request,
      password request <> "abcd1234" ->
      response_endpoint assistant request
      = (Ok (SetOf ["result: Incorrect Password"]), []))
  /\ (forall assistant request response,
         password request = "abcd1234" ->
         construct assistant = Ok tt ->
         chat assistant (query request) = Ok response ->
         response_endpoint assistant request
         = (Ok (ResultOf (Some (content response))), [Constructed; Chat (query request)]))
  /\ (forall assistant request call,
         In call (snd (response_endpoint assistant request)) ->
         password request = "abcd1234").
Proof.
  split; [|split].
  - intros assistant request Hne. unfold response_endpoint.
    apply String.eqb_neq in Hne. rewrite Hne. reflexivity.
  - intros assistant request response Hpw Hconstruct Hchat. unfold response_endpoint.
    rewrite Hpw, Hconstruct. simpl. unfold agentic_endpoint. rewrite Hchat. reflexivity.
  - intros assistant request call Hin.
    destruct (response_endpoint_calls assistant request) as [Hnone|Hpw]; trivial.
    rewrite Hnone in Hin. destruct Hin.
Qed.

End RouteFacts.

(* ================================================================== *)
(** * Further facts about the order processor                           *)
(* ================================================================== *)

Section OrderProcessorEffects.
Context `{PyFloat}.
Import OrderProcessorAccessors.

(** A valid answer of the availability check names a product of the table
    whose stock covers the quantity. *)
Lemma validate_true (self : OrderProcessor.t) (pid : string) (q : pyint) (message : string)
    (found : option Product.t) :
  OrderProcessor.validate_product_availability self pid q = (true, message, found) ->
  exists product,
    found = Some product
    /\ get (OrderProcessor.products self) pid = Some product
    /\ int_val q <= int_val (Product.stock_quantity product)
    /\ message = "Product available".
Proof.
  unfold OrderProcessor.validate_product_availability.
  destruct (get (OrderProcessor.products self) pid) as [product|]; [|discriminate].
  unfold Product.is_in_stock. rewrite Z.geb_leb.
  destruct (Z.leb_spec (int_val q) (int_val (Product.stock_quantity product))) as [Hle|Hgt];
    simpl; [|discriminate].
  intros [= <- <-]. exists product. repeat split; trivial.
Qed.

(** What a successful call changes: the stock of the ordered product. *)
Definition sells (self : OrderProcessor.t) (pid : string) (q : pyint) (product : Product.t)
    (self' : OrderProcessor.t) : Prop :=
  get (OrderProcessor.products self) pid = Some product
  /\ 0 < int_val q <= int_val (Product.stock_quantity product)
  /\ exists row,
       self' = OrderProcessor.decrement_stock
                 (OrderProcessor.mk (OrderProcessor.products self)
                    (OrderProcessor.orders_csv self ++ [row]))
                 pid product q.

(** The two effects a call can have: none, with a failure returned; or the
    sale of [q] units of a product of the table, with a success returned. *)
Lemma process_order_effect (self : OrderProcessor.t) (e : OrderProcessor.Env)
    (a b c d : pyval) :
  (exists message,
      OrderProcessor.process_order self e a b c d
      = (Ok (OrderProcessor.failure message), self))
  \/ (exists pid q product result self',
         a = VStr pid /\ b = of_int q
         /\ OrderProcessor.process_order self e a b c d = (Ok result, self')
         /\ OrderProcessor.success result = true
         /\ sells self pid q product self').
Proof.
  unfold OrderProcessor.process_order.
  destruct (OrderProcessor.process_order_try self e a b c d) as [[result self']|ex] eqn:Htry.
  - apply process_order_try_Ok in Htry
      as [(message & -> & ->)
         |(order & product & stored & Hnew & Hval & _ & _ & _ & Hsuccess & _ & _ & _ & ->)].
    + left. exists message. reflexivity.
    + right. apply Order_new_Ok in Hnew as (-> & _ & -> & Hq & _).
      apply validate_true in Hval as (product' & [= <-] & Hget & Hstock & _).
      exists (Order.product_id order), (Order.quantity order), product, result.
      eexists. repeat split; trivial.
      exists (StoredOrder.to_csv_row stored). reflexivity.
  - left. destruct (isinstance ex ValueError).
    + eexists. reflexivity.
    + rewrite isinstance_Exception. eexists. reflexivity.
Qed.

(** Two products that differ in their stock at most. *)
Definition same_article (p p' : Product.t) : Prop :=
  Product.product_id p' = Product.product_id p
  /\ Product.name p' = Product.name p
  /\ Product.description p' = Product.description p
  /\ Product.price p' = Product.price p
  /\ Product.category p' = Product.category p.

Lemma sells_keys (self : OrderProcessor.t) (pid : string) (q : pyint) (product : Product.t)
    (self' : OrderProcessor.t) :
  sells self pid q product self' ->
  map fst (OrderProcessor.products self') = map fst (OrderProcessor.products self).
Proof.
  intros (Hget & _ & row & ->). unfold OrderProcessor.decrement_stock. simpl.
  eapply keys_set, Hget.
Qed.

Lemma sells_get (self : OrderProcessor.t) (pid : string) (q : pyint) (product : Product.t)
    (self' : OrderProcessor.t) (k : string) :
  sells self pid q product self' ->
  get (OrderProcessor.products self') k
  = if String.eqb k pid
    then Some (Product.mk (Product.product_id product) (Product.name product)
                 (Product.description product) (Product.price product)
                 (IInt (int_val (Product.stock_quantity product) - int_val q))
                 (Product.category product))
    else get (OrderProcessor.products self) k.
Proof.
  intros (Hget & _ & row & ->). unfold OrderProcessor.decrement_stock. simpl.
  destruct (String.eqb_spec k pid) as [->|Hne].
  - apply get_set_same.
  - apply get_set_other, Hne.
Qed.

(** X1.  Whatever the call, [process_order] keeps the catalog: the product
    ids of the table and their order stay, and under each id the product keeps
    its id, name, description, price and category.  Its stock never grows, and
    a stock that was not negative is not negative afterwards. *)
Theorem process_order_keeps_catalog (self : OrderProcessor.t) (e : OrderProcessor.Env)
    (a b c d : pyval) :
  let self' := snd (OrderProcessor.process_order self e a b c d) in
  map fst (OrderProcessor.products self') = map fst (OrderProcessor.products self)
  /\ forall k,
       match get (OrderProcessor.products self) k, get (OrderProcessor.products self') k with
       | Some p, Some p' =>
           same_article p p'
           /\ int_val (Product.stock_quantity p') <= int_val (Product.stock_quantity p)
           /\ (0 <= int_val (Product.stock_quantity p)
               -> 0 <= int_val (Product.stock_quantity p'))
       | None, None => True
       | _, _ => False
       end.
Proof.
  cbv zeta.
  destruct (process_order_effect self e a b c d)
    as [(message & ->) | (pid & q & product & result & self' & _ & _ & -> & _ & Hsells)]; simpl.
  - split; trivial. intros k. destruct (get (OrderProcessor.products self) k); trivial.
    unfold same_article. repeat split; trivial. lia.
  - split; [eapply sells_keys, Hsells|]. intros k.
    rewrite (sells_get _ _ _ _ _ k Hsells).
    destruct Hsells as (Hget & Hq & _).
    destruct (String.eqb_spec k pid) as [->|Hne].
    + rewrite Hget. unfold same_article. simpl. repeat split; lia.
    + destruct (get (OrderProcessor.products self) k); trivial.
      unfold same_article. repeat split; trivial. lia.
Qed.

(** The units of the product [pid] that a series of calls sold: the
    quantities of the calls for [pid] that returned a success. *)
Fixpoint units_sold (pid : string) (calls : list Call)
    (outs : list (res OrderProcessor.Result)) : Z :=
  match calls, outs with
  | call :: calls, out :: outs =>
      (match out, as_int (quantity call) with
       | Ok result, Some q =>
           if OrderProcessor.success result
              && (match product_id call with VStr k => String.eqb k pid | _ => false end)
           then int_val q else 0
       | _, _ => 0
       end) + units_sold pid calls outs
  | _, _ => 0
  end.

(** The number of successes among the answers. *)
Fixpoint successes (outs : list (res OrderProcessor.Result)) : nat :=
  match outs with
  | [] => O
  | Ok result :: outs => (if OrderProcessor.success result then 1 else 0) + successes outs
  | Raise _ :: outs => successes outs
  end.

Lemma process_orders_length (self : OrderProcessor.t) (calls : list Call) :
  List.length (fst (process_orders self calls)) = List.length calls.
Proof.
  revert self. induction calls as [|call rest IH]; intros self; simpl; trivial.
  destruct (OrderProcessor.process_order self (env call) (product_id call) (quantity call)
              (delivery_address call) (product_name call)) as [out self1].
  specialize (IH self1). destruct (process_orders self1 rest) as [outs self2].
  simpl in *. rewrite IH. reflexivity.
Qed.

(** X2.  Stock is conserved over any series of calls: for each product of
    the table, the stock in the end is the stock at the start less the units
    the successful calls for it ordered; nothing else of the product changes,
    and a stock that was not negative never becomes negative. *)
Theorem process_orders_conserve_stock (calls : list Call) (self : OrderProcessor.t)
    (pid : string) (p : Product.t) :
  get (OrderProcessor.products self) pid = Some p ->
  exists p',
    get (OrderProcessor.products (snd (process_orders self calls))) pid = Some p'
    /\ same_article p p'
    /\ int_val (Product.stock_quantity p')
       = int_val (Product.stock_quantity p)
         - units_sold pid calls (fst (process_orders self calls))
    /\ 0 <= units_sold pid calls (fst (process_orders self calls))
    /\ (0 <= int_val (Product.stock_quantity p) -> 0 <= int_val (Product.stock_quantity p')).
Proof.
  revert self p. induction calls as [|call rest IH]; intros self p Hget.
  - exists p. simpl. unfold same_article. repeat split; trivial; lia.
  - simpl.
    destruct (process_order_effect self (env call) (product_id call) (quantity call)
                (delivery_address call) (product_name call))
      as [(message & Hrun) | (k & q & product & result & self1 & Hk & Hq & Hrun & Hok & Hsells)];
      rewrite Hrun.
    + destruct (IH self p Hget) as (p' & Hget' & Hsame & Hstock & Hpos & Hnonneg).
      destruct (process_orders self rest) as [outs self2]. simpl in *.
      exists p'. split; [exact Hget'|]. split; [exact Hsame|].
      destruct (as_int (quantity call)); simpl; repeat split; trivial; lia.
    + pose proof (sells_get _ _ _ _ _ pid Hsells) as Hget1.
      destruct Hsells as (Hgetk & Hrange & _).
      destruct (String.eqb_spec pid k) as [->|Hne].
      * rewrite Hgetk in Hget. inv Hget.
        destruct (IH self1 _ Hget1) as (p' & Hget' & Hsame & Hstock & Hpos & Hnonneg).
        destruct (process_orders self1 rest) as [outs self2]. simpl in *.
        rewrite Hk, Hq, as_int_of_int, Hok, String.eqb_refl. simpl.
        exists p'. split; [exact Hget'|].
        split; [unfold same_article in *; simpl in *; tauto|].
        repeat split; try lia.
      * rewrite Hget in Hget1.
        destruct (IH self1 _ Hget1) as (p' & Hget' & Hsame & Hstock & Hpos & Hnonneg).
        destruct (process_orders self1 rest) as [outs self2]. simpl in *.
        assert (Hkp : String.eqb k pid = false) by (apply String.eqb_neq; congruence).
        rewrite Hk, Hq, as_int_of_int, Hok, Hkp. simpl.
        exists p'. split; [exact Hget'|]. split; [exact Hsame|].
        repeat split; trivial.
Qed.

(** X3.  The ledger only grows, by one row for each success: after any
    series of calls the rows are those of the start, unchanged and in place,
    followed by as many new rows as there were successful calls. *)
Theorem process_orders_ledger (calls : list Call) (self : OrderProcessor.t) :
  exists rows,
    OrderProcessor.orders_csv (snd (process_orders self calls))
    = (OrderProcessor.orders_csv self ++ rows)%list
    /\ List.length rows = successes (fst (process_orders self calls)).
Proof.
  revert self. induction calls as [|call rest IH]; intros self.
  - exists []. simpl. rewrite app_nil_r. split; reflexivity.
  - simpl.
    destruct (process_order_effect self (env call) (product_id call) (quantity call)
                (delivery_address call) (product_name call))
      as [(message & Hrun) | (k & q & product & result & self1 & _ & _ & Hrun & Hok & Hsells)];
      rewrite Hrun.
    + destruct (IH self) as (rows & Hrows & Hlen).
      destruct (process_orders self rest) as [outs self2]. simpl in *.
      exists rows. split; trivial.
    + destruct Hsells as (_ & _ & row & ->).
      match goal with
      | |- context [process_orders ?s rest] =>
          destruct (IH s) as (rows & Hrows & Hlen); destruct (process_orders s rest)
            as [outs self2]
      end.
      simpl in *. exists (row :: rows). rewrite Hrows, <- app_assoc, Hok. simpl.
      split; [reflexivity | rewrite Hlen; reflexivity].
Qed.

End OrderProcessorEffects.

Section AvailabilityFacts.
Context `{PyFloat}.
Import OrderProcessorAccessors.




(** The entries of a dictionary after an assignment to one of its keys. *)
Lemma In_set {V : Type} (d : dict V) (k : string) (v : V) (k' : string) (v' : V) :
  NoDup (map fst d) -> In k (map fst d) ->
  (In (k', v') (set d k v) <-> (k' = k /\ v' = v) \/ (k' <> k /\ In (k', v') d)).
Proof.
  induction d as [|[k0 v0] r IH]; simpl; [intros _ []|].
  intros Hnodup Hin. inversion Hnodup as [|? ? Hfresh Hrest]; subst.
  destruct (String.eqb_spec k0 k) as [->|Hne]; simpl.
  - split.
    + intros [[= <- <-] | Hr]; [left; auto|].
      right. split; [|auto]. intros ->. apply Hfresh. apply (in_map fst _ _ Hr).
    + intros [[-> ->] | [Hk [[= -> ->] | Hr]]]; auto. congruence.
  - destruct Hin as [Heq|Hin]; [congruence|].
    rewrite (IH Hrest Hin). split.
    + intros [[= <- <-] | [Hs | [Hk Hr]]]; auto.
    + intros [Hs | [Hk [[= <- <-] | Hr]]]; auto.
Qed.

Lemma get_In {V : Type} (d : dict V) (k : string) (v : V) : get d k = Some v -> In (k, v) d.
Proof.
  induction d as [|[k0 v0] r IH]; simpl; [discriminate|].
  destruct (String.eqb_spec k0 k) as [->|Hne]; [intros [= ->]; auto | auto].
Qed.

(** A table as the catalog loader builds it: each product stands under its
    own id, and no id stands twice. *)
Definition well_keyed (self : OrderProcessor.t) : Prop :=
  NoDup (map fst (OrderProcessor.products self))
  /\ forall k p, In (k, p) (OrderProcessor.products self) -> Product.product_id p = k.

(** X5.  After a successful order of [q] units of the product [pid],
    [get_in_stock_products] still lists a product with that id exactly when
    [q] was less than its stock: an order that takes the whole stock removes
    the product from the list.  The products with another id are listed as
    before. *)
Theorem get_in_stock_products_after_order (self : OrderProcessor.t)
    (e : OrderProcessor.Env) (pid : string) (q : pyint) (c d : pyval) (product : Product.t)
    (result : OrderProcessor.Result) (self' : OrderProcessor.t) :
  well_keyed self ->
  get (OrderProcessor.products self) pid = Some product ->
  OrderProcessor.process_order self e (VStr pid) (of_int q) c d = (Ok result, self') ->
  OrderProcessor.success result = true ->
  ((exists p', In p' (get_in_stock_products self') /\ Product.product_id p' = pid)
   <-> int_val q < int_val (Product.stock_quantity product))
  /\ (forall p', Product.product_id p' <> pid ->
        (In p' (get_in_stock_products self') <-> In p' (get_in_stock_products self))).
Proof.
  intros [Hnodup Hkeys] Hget Hrun Hok.
  destruct (process_order_effect self e (VStr pid) (of_int q) c d)
    as [(message & Hfail) | (k & q' & product' & result' & self1 & Hk & Hq & Hrun' & _ & Hsells)].
  { rewrite Hfail in Hrun. inv Hrun. discriminate Hok. }
  rewrite Hrun' in Hrun. inv Hrun. injection Hk as <-. apply of_int_inj in Hq. subst q'.
  destruct Hsells as (Hget' & Hrange & row & ->). rewrite Hget in Hget'. inv Hget'.
  set (updated := Product.mk (Product.product_id product') (Product.name product')
                    (Product.description product') (Product.price product')
                    (IInt (int_val (Product.stock_quantity product') - int_val q))
                    (Product.category product')).
  assert (Hin : In pid (map fst (OrderProcessor.products self)))
    by (apply (in_map fst _ _ (get_In _ _ _ Hget))).
  assert (Hentries : forall pid' p',
             In (pid', p') (set (OrderProcessor.products self) pid updated)
             <-> (pid' = pid /\ p' = updated) \/ (pid' <> pid /\ In (pid', p') (OrderProcessor.products self)))
    by (intros pid' p'; apply In_set; assumption).
  assert (Hlisted : forall p',
             In p' (get_in_stock_products
                      (OrderProcessor.decrement_stock
                         (OrderProcessor.mk (OrderProcessor.products self)
                            (OrderProcessor.orders_csv self ++ [row])) pid product' q))
             <-> (int_val (Product.stock_quantity p') > 0
                  /\ (p' = updated
                      \/ exists pid', pid' <> pid /\ In (pid', p') (OrderProcessor.products self)))).
  { intros p'. unfold get_in_stock_products, values, OrderProcessor.decrement_stock. simpl.
    fold updated. rewrite filter_In, in_map_iff. split.
    - intros [([pid' p''] & Hsnd & Hp) Hstock]. simpl in Hsnd. subst p''.
      apply Z.gtb_lt in Hstock. split; [lia|].
      apply Hentries in Hp as [[_ ->] | [Hk' Hp]]; eauto.
    - intros [Hstock [-> | (pid' & Hk' & Hp)]].
      + split; [|apply Z.gtb_lt; lia]. exists (pid, updated). split; trivial.
        apply Hentries. auto.
      + split; [|apply Z.gtb_lt; lia]. exists (pid', p'). split; trivial.
        apply Hentries. auto. }
  assert (Hbefore : forall p',
             In p' (get_in_stock_products self)
             <-> (int_val (Product.stock_quantity p') > 0
                  /\ exists pid', In (pid', p') (OrderProcessor.products self))).
  { intros p'. unfold get_in_stock_products, values. rewrite filter_In, in_map_iff. split.
    - intros [([pid' p''] & Hsnd & Hp) Hstock]. simpl in Hsnd. subst p''.
      apply Z.gtb_lt in Hstock. split; [lia | eauto].
    - intros [Hstock (pid' & Hp)]. split; [|apply Z.gtb_lt; lia].
      exists (pid', p'). split; trivial. }
  assert (Hid : Product.product_id product' = pid) by (apply Hkeys, get_In, Hget).
  split.
  - split.
    + intros (p' & Hp' & Hpid). apply Hlisted in Hp' as [Hstock [-> | (pid' & Hk' & Hp)]].
      * simpl in Hstock. lia.
      * apply Hkeys in Hp. congruence.
    + intros Hless. exists updated. split; [|exact Hid].
      apply Hlisted. split; [simpl; lia | auto].
  - intros p' Hother. rewrite Hlisted, Hbefore. split.
    + intros [Hstock [-> | (pid' & Hk' & Hp)]]; [simpl in Hother; congruence | eauto].
    + intros [Hstock (pid' & Hp)]. split; trivial. right. exists pid'. split; trivial.
      intros ->. apply Hkeys in Hp. congruence.
Qed.

End AvailabilityFacts.

(* ================================================================== *)
(** * Facts about the retry loop in general                             *)
(* ================================================================== *)

Section RetryTraces.
Context {Payload Json : Type}.
Import SarvamLLMService.

Local Abbreviation World := (SarvamLLMService.World Payload Json).
Local Abbreviation Response := (SarvamLLMService.Response Json).

(** The sleeps before the attempts [a + 1 .. a + k]: [2 ^ a], [2 ^ (a + 1)],
    ...; [backoff k] is 1, 2, 4, ..., [2 ^ (k - 1)]. *)
Definition backoff_from (a k : nat) : list Z := map (fun i => 2 ^ Z.of_nat i) (seq a k).

Definition backoff (k : nat) : list Z := backoff_from 0 k.

Definition total (pauses : list Z) : Z := fold_right Z.add 0 pauses.

(** An outcome of [session.post] after which the client tries again: a
    response 429 or 5xx, or an exception of [requests]. *)
Definition retryable (outcome : res Response) : Prop :=
  match outcome with
  | Ok response => status_code response = 429 \/ 500 <= status_code response < 600
  | Raise e => isinstance e Requests_RequestException = true
  end.

Definition is_continue (how : @flow Json) : bool :=
  match how with
  | Continue => true
  | _ => false
  end.

Lemma backoff_from_S (a k : nat) :
  backoff_from a (S k) = 2 ^ Z.of_nat a :: backoff_from (S a) k.
Proof. reflexivity. Qed.

Lemma backoff_from_snoc (a k : nat) :
  backoff_from a (S k) = (backoff_from a k ++ [2 ^ Z.of_nat (a + k)])%list.
Proof.
  unfold backoff_from. rewrite seq_S, map_app. reflexivity.
Qed.

Lemma total_app (xs ys : list Z) : total (xs ++ ys) = total xs + total ys.
Proof. unfold total. induction xs as [|x r IH]; simpl; lia. Qed.

Lemma total_backoff (k : nat) : total (backoff k) = 2 ^ Z.of_nat k - 1.
Proof.
  unfold backoff. induction k as [|k IH]; [reflexivity|].
  rewrite backoff_from_snoc, total_app, IH, Nat2Z.inj_succ, Z.pow_succ_r by lia.
  unfold total. cbn [fold_right]. rewrite Nat.add_0_l. lia.
Qed.

(** The sleep of a round: the client sleeps exactly when the round ends in
    [continue] with an attempt left; every round posts once. *)
Lemma attempt_once_flow (self : SarvamConfig) (payload : Payload) (attempt : Z)
    (last : option exn) (w : World) :
  snd (attempt_once self payload attempt last w)
  = if is_continue (fst (fst (attempt_once self payload attempt last w)))
       && (attempt <? max_retries self)
    then waited (2 ^ attempt) (posted w)
    else posted w.
Proof.
  unfold attempt_once, session_post, handlers, _wait_with_backoff, time_sleep.
  fold (posted w).
  destruct (attempt <? max_retries self) eqn:Hleft;
    repeat match goal with
           | |- context [match ?x with _ => _ end] =>
               lazymatch x with
               | context [match _ with _ => _ end] => fail
               | _ => destruct x eqn:?; cbn [fst snd is_continue andb]
               end
           end; reflexivity.
Qed.

(** The calls and sleeps of the rounds [a .. a + m - 1], the last of which is
    the attempt [max_retries]. *)
Lemma loop_trace (self : SarvamConfig) (payload : Payload) (m a : nat)
    (last : option exn) (w : World) :
  Z.of_nat (a + S m) = max_retries self + 1 ->
  exists k, (k <= m)%nat
            /\ snd (loop self payload (map Z.of_nat (seq a (S m))) last w)
               = mk_world (server w) (posts w + k + 1) (slept w ++ backoff_from a k).
Proof.
  revert a last w. induction m as [|m IH]; intros a last w Hend.
  - exists 0%nat. split; [lia|]. cbn [seq map loop].
    pose proof (attempt_once_flow self payload (Z.of_nat a) last w) as Hflow.
    destruct (attempt_once self payload (Z.of_nat a) last w) as [[how last'] w'].
    simpl in Hflow. subst w'.
    assert (Hlast : (Z.of_nat a <? max_retries self) = false) by (apply Z.ltb_ge; lia).
    rewrite Hlast, andb_false_r. unfold posted, backoff_from. simpl.
    rewrite app_nil_r. replace (posts w + 0 + 1)%nat with (S (posts w)) by lia.
    destruct how; reflexivity.
  - change (seq a (S (S m))) with (a :: seq (S a) (S m)). cbn [map loop].
    pose proof (attempt_once_flow self payload (Z.of_nat a) last w) as Hflow.
    destruct (attempt_once self payload (Z.of_nat a) last w) as [[how last'] w'].
    simpl in Hflow. subst w'.
    assert (Hleft : (Z.of_nat a <? max_retries self) = true) by (apply Z.ltb_lt; lia).
    rewrite Hleft, andb_true_r.
    destruct how; cbn [is_continue snd];
      try (exists 0%nat; split; [lia|]; unfold posted, backoff_from; simpl;
           rewrite app_nil_r; replace (posts w + 0 + 1)%nat with (S (posts w)) by lia;
           reflexivity).
    destruct (IH (S a) last' (waited (2 ^ Z.of_nat a) (posted w))) as (k & Hk & Hw); [lia|].
    exists (S k). split; [lia|]. rewrite Hw.
    unfold waited, posted. simpl. rewrite backoff_from_S, <- app_assoc. simpl.
    replace (S (posts w + k + 1)) with (posts w + S k + 1)%nat by lia. reflexivity.
Qed.

Lemma range_seq (n : Z) : range n = map Z.of_nat (seq 0 (Z.to_nat n)).
Proof. reflexivity. Qed.

(** A round that meets a retryable outcome with an attempt left: one call, a
    sleep of [2 ^ attempt] seconds, and the next round. *)
Lemma loop_retryable_outcome (self : SarvamConfig) (payload : Payload) (attempt : Z)
    (rest : list Z) (last : option exn) (w : World) :
  retryable (server w (posts w) payload) ->
  attempt < max_retries self ->
  exists last',
    loop self payload (attempt :: rest) last w
    = loop self payload rest last' (waited (2 ^ attempt) (posted w)).
Proof.
  intros Hretry Hleft.
  destruct (server w (posts w) payload) as [response|e] eqn:Hpost; simpl in Hretry.
  - exists last. apply (loop_retryable self payload attempt rest last w response); assumption.
  - cbn [loop]. unfold attempt_once, session_post. rewrite Hpost. unfold handlers.
    apply Z.ltb_lt in Hleft. rewrite Hleft, Hretry.
    destruct (isinstance e Requests_Timeout); [eexists; reflexivity|].
    destruct (isinstance e Requests_ConnectionError); eexists; reflexivity.
Qed.

(** The same outcome on the last attempt: one call, no sleep, and the call
    fails. *)
Lemma loop_retryable_outcome_last (self : SarvamConfig) (payload : Payload) (attempt : Z)
    (last : option exn) (w : World) :
  retryable (server w (posts w) payload) ->
  max_retries self <= attempt ->
  exists e, loop self payload [attempt] last w = (Raise e, posted w).
Proof.
  intros Hretry Hlast.
  destruct (server w (posts w) payload) as [response|e] eqn:Hpost; simpl in Hretry.
  - destruct (loop_retryable_last self payload attempt [] last w response Hpost Hretry Hlast)
      as (reason & Hloop).
    eexists. exact Hloop.
  - cbn [loop]. unfold attempt_once, session_post. rewrite Hpost. unfold handlers.
    apply Z.ltb_ge in Hlast. rewrite Hlast, Hretry.
    destruct (isinstance e Requests_Timeout); [eexists; reflexivity|].
    destruct (isinstance e Requests_ConnectionError); eexists; reflexivity.
Qed.

(** [k] retryable outcomes in a row, each with an attempt left. *)
Lemma loop_retryable_run (self : SarvamConfig) (payload : Payload) (k a : nat)
    (rest : list Z) (last : option exn) (w : World) :
  Z.of_nat (a + k) <= max_retries self ->
  (forall i, (i < k)%nat -> retryable (server w (posts w + i) payload)) ->
  exists last',
    loop self payload (map Z.of_nat (seq a k) ++ rest) last w
    = loop self payload rest last'
        (mk_world (server w) (posts w + k) (slept w ++ backoff_from a k)).
Proof.
  revert a last w. induction k as [|k IH]; intros a last w Hleft Hretry.
  - exists last. unfold backoff_from. simpl. rewrite app_nil_r, Nat.add_0_r.
    destruct w; reflexivity.
  - cbn [seq map app].
    destruct (loop_retryable_outcome self payload (Z.of_nat a)
                (map Z.of_nat (seq (S a) k) ++ rest) last w) as (last1 & ->).
    { rewrite <- (Nat.add_0_r (posts w)). apply Hretry. lia. }
    { lia. }
    destruct (IH (S a) last1 (waited (2 ^ Z.of_nat a) (posted w))) as (last' & ->).
    { lia. }
    { intros i Hi. simpl. replace (S (posts w + i)) with (posts w + S i)%nat by lia.
      apply Hretry. lia. }
    exists last'. unfold waited, posted. simpl. rewrite backoff_from_S, <- app_assoc. simpl.
    replace (S (posts w + k)) with (posts w + S k)%nat by lia. reflexivity.
Qed.

Lemma range_split (n : Z) (k : nat) :
  Z.of_nat k <= n ->
  range (n + 1)
  = (map Z.of_nat (seq 0 k) ++ Z.of_nat k :: map Z.of_nat (seq (S k) (Z.to_nat n - k)))%list.
Proof.
  intros Hk. unfold range.
  replace (Z.to_nat (n + 1)) with (k + S (Z.to_nat n - k))%nat by lia.
  rewrite seq_app, map_app. reflexivity.
Qed.

(** With a negative [max_retries] the loop has no round. *)
Lemma make_request_without_attempts (self : SarvamConfig) (payload : Payload) (w : World) :
  max_retries self < 0 ->
  _make_request_with_retry self payload w
  = (raise Exception "API request failed after all retries", w).
Proof.
  intros Hneg. unfold _make_request_with_retry, range.
  replace (Z.to_nat (max_retries self + 1)) with 0%nat by lia. reflexivity.
Qed.

(** X6.  The calls and sleeps of [_make_request_with_retry], whatever the
    server does.  With a negative [max_retries] the client makes no call at
    all and raises [API request failed after all retries].  Otherwise it makes
    [k + 1] calls for some [k <= max_retries] and sleeps exactly between
    them: 1, 2, 4, ..., [2 ^ (k - 1)] seconds, with no sleep after the last
    call. *)
Theorem make_request_with_retry_trace (self : SarvamConfig) (payload : Payload) (w : World) :
  (max_retries self < 0 /\
   _make_request_with_retry self payload w
   = (raise Exception "API request failed after all retries", w))
  \/ (0 <= max_retries self /\
      exists k, Z.of_nat k <= max_retries self
                /\ snd (_make_request_with_retry self payload w)
                   = mk_world (server w) (posts w + k + 1) (slept w ++ backoff k)).
Proof.
  unfold _make_request_with_retry.
  destruct (Z.lt_ge_cases (max_retries self) 0) as [Hneg|Hpos].
  - left. split; trivial. fold (_make_request_with_retry self payload w).
    apply make_request_without_attempts, Hneg.
  - right. split; trivial. rewrite range_seq.
    replace (Z.to_nat (max_retries self + 1)) with (S (Z.to_nat (max_retries self))) by lia.
    destruct (loop_trace self payload (Z.to_nat (max_retries self)) 0 None w)
      as (k & Hk & Hw); [lia|].
    exists k. split; [lia | exact Hw].
Qed.

(** X7.  However the call goes, the client sleeps less than
    [2 ^ max_retries] seconds in all. *)
Theorem make_request_with_retry_total_sleep (self : SarvamConfig) (payload : Payload)
    (w : World) :
  0 <= max_retries self ->
  exists pauses,
    slept (snd (_make_request_with_retry self payload w)) = (slept w ++ pauses)%list
    /\ 0 <= total pauses <= 2 ^ max_retries self - 1.
Proof.
  intros Hpos. unfold _make_request_with_retry. rewrite range_seq.
  replace (Z.to_nat (max_retries self + 1)) with (S (Z.to_nat (max_retries self))) by lia.
  destruct (loop_trace self payload (Z.to_nat (max_retries self)) 0 None w)
    as (k & Hk & Hw); [lia|].
  exists (backoff k). rewrite Hw. split; [reflexivity|].
  fold (backoff k). rewrite total_backoff.
  assert (0 < 2 ^ Z.of_nat k) by (apply Z.pow_pos_nonneg; lia).
  assert (2 ^ Z.of_nat k <= 2 ^ max_retries self) by (apply Z.pow_le_mono_r; lia).
  lia.
Qed.

(** X8.  A server that only ever gives retryable outcomes (429, 5xx, time
    outs, connection errors, other exceptions of [requests]) is called
    [max_retries + 1] times, with all the sleeps 1, 2, ..., [2 ^ (max_retries -
    1)] between the calls, and the call raises. *)
Theorem make_request_with_retry_gives_up (self : SarvamConfig) (payload : Payload)
    (w : World) :
  0 <= max_retries self ->
  (forall k, retryable (server w k payload)) ->
  exists e,
    _make_request_with_retry self payload w
    = (Raise e,
       mk_world (server w) (posts w + Z.to_nat (max_retries self) + 1)
         (slept w ++ backoff (Z.to_nat (max_retries self)))).
Proof.
  intros Hpos Hretry. unfold _make_request_with_retry.
  rewrite (range_split (max_retries self) (Z.to_nat (max_retries self))) by lia.
  rewrite Nat.sub_diag. cbn [seq map].
  destruct (loop_retryable_run self payload (Z.to_nat (max_retries self)) 0
              [Z.of_nat (Z.to_nat (max_retries self))] None w) as (last' & ->).
  { lia. }
  { intros i _. apply Hretry. }
  destruct (loop_retryable_outcome_last self payload (Z.of_nat (Z.to_nat (max_retries self)))
              last'
              (mk_world (server w) (posts w + Z.to_nat (max_retries self))
                 (slept w ++ backoff_from 0 (Z.to_nat (max_retries self)))))
    as (e & ->).
  { simpl. apply Hretry. }
  { lia. }
  exists e. unfold posted, backoff. simpl.
  replace (S (posts w + Z.to_nat (max_retries self)))
    with (posts w + Z.to_nat (max_retries self) + 1)%nat by lia.
  reflexivity.
Qed.

(** X9.  After [k <= max_retries] retryable outcomes, a response 200 whose
    body decodes ends the call with that body: [k + 1] calls, and the sleeps
    1, 2, ..., [2 ^ (k - 1)]. *)
Theorem make_request_with_retry_recovers (self : SarvamConfig) (payload : Payload)
    (w : World) (k : nat) (response : Response) (body : Json) :
  Z.of_nat k <= max_retries self ->
  (forall i, (i < k)%nat -> retryable (server w (posts w + i) payload)) ->
  server w (posts w + k) payload = Ok response ->
  status_code response = 200 ->
  json response = Ok body ->
  _make_request_with_retry self payload w
  = (Ok body, mk_world (server w) (posts w + k + 1) (slept w ++ backoff k)).
Proof.
  intros Hk Hretry Hpost Hstatus Hjson. unfold _make_request_with_retry.
  rewrite (range_split (max_retries self) k) by lia.
  destruct (loop_retryable_run self payload k 0
              (Z.of_nat k :: map Z.of_nat (seq (S k) (Z.to_nat (max_retries self) - k)))
              None w) as (last' & ->).
  { lia. }
  { exact Hretry. }
  rewrite (loop_200 self payload (Z.of_nat k) _ last'
             (mk_world (server w) (posts w + k) (slept w ++ backoff_from 0 k))
             response body Hpost Hstatus Hjson).
  unfold posted, backoff. simpl.
  replace (S (posts w + k)) with (posts w + k + 1)%nat by lia. reflexivity.
Qed.

End RetryTraces.

(* ================================================================== *)
(** * Facts about the configuration and the answers of the service      *)
(* ================================================================== *)

Section SarvamSetupFacts.
Context {Payload Json : Type}.
Import SarvamLLMService SarvamSetup.





End SarvamSetupFacts.

Section SarvamAnswerFacts.
Context `{PyFloat}.
Import SarvamAnswer.

Lemma rstrip_idempotent (s : string) : rstrip (rstrip s) = rstrip s.
Proof.
  induction s as [|c r IH]; simpl; trivial.
  destruct (rstrip r) as [|c' r'] eqn:Hr.
  - destruct (is_space c) eqn:Hc; simpl; [reflexivity | rewrite Hc; reflexivity].
  - change (rstrip (String c (String c' r')))
      with (match rstrip (String c' r') with
            | EmptyString => if is_space c then EmptyString else String c EmptyString
            | r0 => String c r0
            end).
    rewrite IH. reflexivity.
Qed.

Lemma lstrip_head (s : string) :
  lstrip s = "" \/ exists c r, lstrip s = String c r /\ is_space c = false.
Proof.
  induction s as [|c r IH]; simpl; auto.
  destruct (is_space c) eqn:Hc; eauto.
Qed.

Lemma rstrip_head (c : ascii) (r : string) :
  is_space c = false -> exists r', rstrip (String c r) = String c r'.
Proof.
  intros Hc. simpl. destruct (rstrip r); [rewrite Hc|]; eauto.
Qed.

(** What [strip] returns has no white space left at either end. *)
Lemma strip_idempotent (s : string) : strip (strip s) = strip s.
Proof.
  unfold strip. destruct (lstrip_head s) as [-> | (c & r & -> & Hc)]; [reflexivity|].
  destruct (rstrip_head c r Hc) as (r' & Hr). rewrite Hr. simpl lstrip. rewrite Hc.
  rewrite <- Hr. apply rstrip_idempotent.
Qed.



End SarvamAnswerFacts.

(* ================================================================== *)
(** * Facts about the search                                            *)
(* ================================================================== *)

Section RAGSearchFacts.
Context `{PyFloat}.
Import RAGSearch.

Lemma get_product_by_id_Some (self : RAGSearch.t) (product_id : string) (product : Product.t) :
  _get_product_by_id self product_id = Some product ->
  In product (RAGEngine.products (engine self)) /\ Product.product_id product = product_id.
Proof.
  unfold _get_product_by_id. intros Hfind. apply find_some in Hfind as [Hin Heq].
  apply String.eqb_eq in Heq. auto.
Qed.

Lemma existsb_eqb (x : string) (xs : list string) :
  existsb (String.eqb x) xs = true <-> In x xs.
Proof.
  rewrite existsb_exists. split.
  - intros (y & Hy & Heq). apply String.eqb_eq in Heq. subst. exact Hy.
  - intros Hx. exists x. split; [exact Hx | apply String.eqb_refl].
Qed.

(** A product that the search may list for a node with the id [product_id]. *)
Definition found (self : RAGSearch.t) (nodes : list Node) (product : Product.t) : Prop :=
  Product.product_id product <> ""
  /\ In (Some (Product.product_id product)) (map metadata_product_id nodes)
  /\ _get_product_by_id self (Product.product_id product) = Some product.

(** The loop keeps the ids of [products] distinct and in step with
    [seen_product_ids]; it only ever adds at the end. *)
Lemma collect_spec (self : RAGSearch.t) (nodes : list Node) :
  forall (products : list Product.t) (seen : list string),
    (forall product_id, In product_id seen <-> In product_id (map Product.product_id products)) ->
    NoDup (map Product.product_id products) ->
    (forall product,
        In product products ->
        _get_product_by_id self (Product.product_id product) = Some product) ->
    exists more,
      collect self nodes products seen = (products ++ more)%list
      /\ (List.length more <= List.length nodes)%nat
      /\ NoDup (map Product.product_id (products ++ more))
      /\ (forall product,
             In product (products ++ more) <-> In product products \/ found self nodes product).
Proof.
  induction nodes as [|node rest IH]; intros products seen Hseen Hnodup Hknown.
  - exists []. simpl. rewrite app_nil_r.
    split; [reflexivity|]. split; [lia|]. split; [exact Hnodup|].
    intros product. split; [auto|]. intros [Hin | (_ & [] & _)]. exact Hin.
  - assert (Hskip :
              (forall product, found self (node :: rest) product ->
                               In product products \/ found self rest product) ->
              exists more,
                collect self rest products seen = (products ++ more)%list
                /\ (List.length more <= List.length (node :: rest))%nat
                /\ NoDup (map Product.product_id (products ++ more))
                /\ (forall product,
                       In product (products ++ more)
                       <-> In product products \/ found self (node :: rest) product)).
    { intros Hhead. destruct (IH products seen Hseen Hnodup Hknown)
        as (more & Hrun & Hlen & Hdistinct & Hin).
      exists more. split; [exact Hrun|]. split; [simpl; lia|]. split; [exact Hdistinct|].
      intros product. split.
      - intros Hp. apply Hin in Hp as [Hp | (Hfull & Hnode & Hget)]; auto.
        right. split; [exact Hfull|]. split; [simpl; auto | exact Hget].
      - intros [Hp | Hp]; [apply Hin; auto|].
        apply Hin. apply Hhead, Hp. }
    assert (Hrest : forall product,
               found self (node :: rest) product ->
               metadata_product_id node <> Some (Product.product_id product) ->
               found self rest product).
    { intros product (Hne & Hfrom & Hget) Hother. split; [exact Hne|].
      split; [|exact Hget]. simpl in Hfrom. destruct Hfrom as [Heq|Hfrom]; congruence. }
    cbn [collect]. destruct (metadata_product_id node) as [product_id|] eqn:Hnode.
    + destruct (String.eqb_spec product_id "") as [Hempty|Hfull]; cbn [negb andb].
      { apply Hskip. intros product Hp. right. apply Hrest; trivial.
        destruct Hp as (Hne & _). congruence. }
      destruct (existsb (String.eqb product_id) seen) eqn:Hmember; cbn [negb].
      { apply Hskip. intros product Hp.
        destruct (string_dec product_id (Product.product_id product)) as [Heq|Hother].
        - left. destruct Hp as (_ & _ & Hget).
          apply existsb_eqb, Hseen, in_map_iff in Hmember as (other & Hid & Hother).
          pose proof (Hknown other Hother) as Hget'. rewrite Hid, Heq, Hget in Hget'.
          inv Hget'. exact Hother.
        - right. apply Hrest; trivial. congruence. }
      destruct (_get_product_by_id self product_id) as [product|] eqn:Hget.
      * apply get_product_by_id_Some in Hget as Hproduct. destruct Hproduct as [_ Hid].
        assert (Hfresh : ~ In product_id (map Product.product_id products)).
        { intros Hin. apply Hseen, existsb_eqb in Hin. congruence. }
        destruct (IH (products ++ [product])%list (product_id :: seen))
          as (more & Hrun & Hlen & Hdistinct & Hin).
        { intros other. rewrite map_app, in_app_iff. simpl. rewrite Hseen, Hid. tauto. }
        { rewrite map_app. simpl. rewrite Hid. apply NoDup_app; trivial.
          - repeat constructor. intros [].
          - intros other Hother [Heq|[]]. subst. auto. }
        { intros other Hother. apply in_app_iff in Hother as [Hother | [<- | []]]; auto.
          rewrite Hid. exact Hget. }
        rewrite <- app_assoc in Hrun, Hdistinct.
        exists (product :: more). split; [exact Hrun|]. split; [simpl; lia|].
        split; [exact Hdistinct|].
        intros other. specialize (Hin other). rewrite <- app_assoc in Hin.
        rewrite Hin, in_app_iff. split.
        -- intros [[Hp | [<- | []]] | Hp].
           ++ auto.
           ++ right. split; [congruence|]. split; [simpl; rewrite Hnode, Hid; auto|].
              rewrite Hid. exact Hget.
           ++ right. destruct Hp as (Hne & Hfrom & Hget').
              split; [exact Hne|]. split; [simpl; auto | exact Hget'].
        -- intros [Hp | Hp]; [auto|].
           destruct (string_dec product_id (Product.product_id other)) as [Heq|Hother].
           ++ left. right. left. destruct Hp as (_ & _ & Hget'). congruence.
           ++ right. apply Hrest; trivial. congruence.
      * apply Hskip. intros product Hp. right. apply Hrest; trivial.
        destruct Hp as (_ & _ & Hget'). congruence.
    + apply Hskip. intros product Hp. right. apply Hrest; trivial. discriminate.
Qed.

(** X13.  Without an index [search_products] raises a [ValueError]; an
    exception of the retriever leaves it unchanged.  On the nodes the
    retriever returns, the search lists exactly the products of the engine's
    own list that a node names (by an id that is not empty, and as
    [_get_product_by_id] finds them), each once: no two products of the result
    have the same id, and there are at most as many as nodes. *)
Theorem search_products_lists_each_found_product_once (self : RAGSearch.t) (query : string)
    (top_k : Z) :
  match index self with
  | None =>
      search_products self query top_k
      = raise ValueError "Index not initialized. Call initialize_index() first."
  | Some retrieve =>
      match retrieve top_k query with
      | Raise e => search_products self query top_k = Raise e
      | Ok nodes =>
          exists products,
            search_products self query top_k = Ok products
            /\ NoDup (map Product.product_id products)
            /\ (List.length products <= List.length nodes)%nat
            /\ (forall product, In product products <-> found self nodes product)
            /\ (forall product,
                   In product products -> In product (RAGEngine.products (engine self)))
      end
  end.
Proof.
  unfold search_products. destruct (index self) as [retrieve|]; [|reflexivity].
  destruct (retrieve top_k query) as [nodes|e]; [|reflexivity]. simpl.
  destruct (collect_spec self nodes [] []) as (more & Hrun & Hlen & Hdistinct & Hin).
  { intros product_id. simpl. tauto. }
  { constructor. }
  { intros product []. }
  simpl in *. exists more. rewrite Hrun.
  split; [reflexivity|]. split; [exact Hdistinct|]. split; [exact Hlen|]. split.
  - intros product. rewrite Hin. tauto.
  - intros product Hp. apply Hin in Hp as [[]|(_ & _ & Hget)].
    apply get_product_by_id_Some in Hget. tauto.
Qed.

End RAGSearchFacts.

(* ================================================================== *)
(** * Facts about the agent                                             *)
(* ================================================================== *)

Section ContainsFacts.




End ContainsFacts.

Section AgentChatFacts.
Context `{PyFloat}.
Import ChatInterface LlamaIndexAgentChat.

Lemma generate_response_answers (self : RAGEngine.t) (completion : RAGEngine.Completion)
    (query : string) (products : list Product.t) :
  exists response, RAGEngine.generate_response self completion query products = Ok response.
Proof.
  unfold RAGEngine.generate_response.
  destruct products as [|product rest]; [eauto|].
  destruct (completion _ _) as [response|e]; [eauto|].
  rewrite isinstance_Exception. eauto.
Qed.




(** The fallback answers, and reports a failure only when the search
    raised. *)
Lemma fallback_processing_failure (self : LlamaIndexAgentChat.t) (user_message error : string) :
  exists response,
    _fallback_processing self user_message error = Ok response
    /\ (success response = false ->
        exists e, RAGSearch.search_products (rag_engine self) user_message 10 = Raise e).
Proof.
  unfold _fallback_processing, _fallback_processing_try.
  destruct (any_in order_keywords (lower user_message)).
  { eexists. split; [reflexivity | discriminate]. }
  destruct (any_in product_keywords (lower user_message)).
  - unfold bind.
    destruct (RAGSearch.search_products (rag_engine self) user_message 10) as [products|e].
    + destruct (generate_response_answers (RAGSearch.engine (rag_engine self))
                  (simple_completion self) user_message products) as (response & Hresponse).
      rewrite Hresponse. eexists. split; [reflexivity | discriminate].
    + rewrite isinstance_Exception. eexists. split; [reflexivity | eauto].
  - eexists. split; [reflexivity | discriminate].
Qed.


End AgentChatFacts.

(* ================================================================== *)
(** * Facts about the terminal session and the route                    *)
(* ================================================================== *)

Section ChatSessionFacts.
Context `{PyFloat}.
Import ChatInterface ChatSession.

Lemma upper_char_Q (c : ascii) : upper_char c = "Q"%char -> c = "q"%char \/ c = "Q"%char.
Proof.
  destruct c as [[] [] [] [] [] [] [] []]; vm_compute; intros Hc; auto; discriminate Hc.
Qed.

(** X17.  [_should_quit] holds of the two texts [q] and [Q], and of no
    other: a longer text such as [quit] does not end the session. *)
Theorem should_quit_q_only (user_input : string) :
  _should_quit user_input = true <-> user_input = "q" \/ user_input = "Q".
Proof.
  unfold _should_quit. rewrite String.eqb_eq. split.
  - destruct user_input as [|c [|c' r]]; simpl; try discriminate.
    intros [= Hc]. destruct (upper_char_Q c Hc) as [-> | ->]; auto.
  - intros [-> | ->]; reflexivity.
Qed.

(** The lines before the one that ends the session. *)
Fixpoint before_end (keys : list keyboard) : list string :=
  match keys with
  | Line raw :: rest =>
      if _should_quit (strip raw) then [] else strip raw :: before_end rest
  | _ => []
  end.

Lemma len_0 (s : string) : (len s =? 0)%nat = String.eqb s "".
Proof. destruct s; reflexivity. Qed.

Lemma chat_loop_asked (agent : LlamaIndexAgentChat.t) (keys : list keyboard) :
  snd (chat_loop agent keys)
  = filter (fun user_input => negb (String.eqb user_input "")) (before_end keys).
Proof.
  induction keys as [|[raw| |] rest IH]; simpl; trivial.
  - destruct (_should_quit (strip raw)); [reflexivity|].
    unfold _is_empty_input. rewrite len_0.
    destruct (chat_loop agent rest) as [printed asked]. simpl in *.
    destruct (String.eqb (strip raw) ""); simpl; congruence.
Qed.

Lemma before_end_clean (keys : list keyboard) (user_input : string) :
  In user_input (before_end keys) ->
  strip user_input = user_input /\ _should_quit user_input = false.
Proof.
  induction keys as [|[raw| |] rest IH]; simpl; try tauto.
  destruct (_should_quit (strip raw)) eqn:Hquit; simpl; [tauto|].
  intros [<- | Hin]; [|auto]. split; [apply strip_idempotent | exact Hquit].
Qed.

(** X18.  What a session asks the agent: the typed lines, stripped, up to
    the first line that reads [q] or [Q] once stripped, the end of the input,
    or an interrupt, and without the lines that are blank.  So the agent is
    never asked an empty text, a text with white space at its ends, or the
    quit command; and an interface whose agent is missing or not ready asks
    nothing. *)
Theorem start_chat_asks_the_typed_lines (self : ChatSession.t) (keys : list keyboard) :
  let asked := snd (start_chat self keys) in
  match agent self with
  | None => asked = []
  | Some agent =>
      if LlamaIndexAgentChat.is_ready agent then
        asked = filter (fun user_input => negb (String.eqb user_input "")) (before_end keys)
      else asked = []
  end
  /\ (forall user_input,
         In user_input asked ->
         user_input <> "" /\ strip user_input = user_input
         /\ user_input <> "q" /\ user_input <> "Q").
Proof.
  cbv zeta. unfold start_chat.
  assert (Hclean : forall user_input,
             In user_input
               (filter (fun user_input => negb (String.eqb user_input "")) (before_end keys)) ->
             user_input <> "" /\ strip user_input = user_input
             /\ user_input <> "q" /\ user_input <> "Q").
  { intros user_input Hin. apply filter_In in Hin as [Hin Hfull].
    apply before_end_clean in Hin as [Hstrip Hquit].
    split; [|split; [exact Hstrip|]].
    - intros ->. discriminate Hfull.
    - split; intros ->; discriminate Hquit. }
  destruct (agent self) as [agent|]; [|split; [reflexivity | intros ? []]].
  destruct (LlamaIndexAgentChat.is_ready agent); simpl; [|split; [reflexivity | intros ? []]].
  pose proof (chat_loop_asked agent keys) as Hasked.
  destruct (chat_loop agent keys) as [printed asked]. simpl in *. subst asked.
  split; [reflexivity | exact Hclean].
Qed.

(** The assistant behind the route when the interface holds this agent: the
    constructor has built it, and [chat] is the agent's. *)
Definition assistant_of (agent : LlamaIndexAgentChat.t) : Assistant :=
  mk_assistant (Ok tt) (LlamaIndexAgentChat.chat agent).

Lemma chat_answers (agent : LlamaIndexAgentChat.t) (user_message : string) :
  exists response, LlamaIndexAgentChat.chat agent user_message = Ok response.
Proof.
  unfold LlamaIndexAgentChat.chat.
  destruct (LlamaIndexAgentChat.agent agent) as [agent_chat|]; [|eauto].
  unfold bind. destruct (agent_chat user_message) as [text|e]; [eauto|].
  rewrite isinstance_Exception.
  destruct (fallback_processing_failure agent user_message (str_of e)) as (response & Hrun & _).
  eauto.
Qed.

(** X19.  With the agent of llamaindex_agent.py behind them, the session
    and the route always have an answer to show: [_process_user_input] prints
    a response and never the processing error, and the route [/respond]
    answers a request that carries the password with a text under [result],
    never with [None]. *)
Theorem agent_always_has_an_answer (agent : LlamaIndexAgentChat.t) (user_input : string) :
  (exists response,
      LlamaIndexAgentChat.chat agent user_input = Ok response
      /\ _process_user_input agent user_input = Response response
      /\ agentic_endpoint (assistant_of agent) user_input
         = (Ok (Some (content response)), [Chat user_input])
      /\ response_endpoint (assistant_of agent) (mk_input "abcd1234" user_input)
         = (Ok (ResultOf (Some (content response))), [Constructed; Chat user_input])).
Proof.
  destruct (chat_answers agent user_input) as (response & Hchat).
  exists response. unfold _process_user_input, response_endpoint, agentic_endpoint. simpl.
  rewrite Hchat. auto.
Qed.

(** X20.  What the route [/respond] does with a request that carries the
    password when the assistant fails.  An exception of the constructor leaves
    the route as it is, before any call of [chat]; an exception of [chat] is
    swallowed, and the route answers with [None] under [result]. *)
Theorem respond_route_failures (assistant : Assistant) (request : APIInput) :
  password request = "abcd1234" ->
  match construct assistant with
  | Raise e => response_endpoint assistant request = (Raise e, [Constructed])
  | Ok _ =>
      match ChatInterface.chat assistant (query request) with
      | Raise e =>
          response_endpoint assistant request
          = (Ok (ResultOf None), [Constructed; Chat (query request)])
      | Ok response =>
          response_endpoint assistant request
          = (Ok (ResultOf (Some (content response))), [Constructed; Chat (query request)])
      end
  end.
Proof.
  intros Hpassword. unfold response_endpoint, agentic_endpoint. rewrite Hpassword. simpl.
  destruct (construct assistant) as [[]|e]; [|reflexivity].
  destruct (ChatInterface.chat assistant (query request)) as [response|e]; [reflexivity|].
  rewrite isinstance_Exception. reflexivity.
Qed.

End ChatSessionFacts.

(* ================================================================== *)
(** * Further facts about the data models                               *)
(* ================================================================== *)

Section MoreDataModelFacts.
Context `{PyFloat}.

(** X21.  An [Order] is constructed exactly when the product id and the
    address are strings that are not empty and the quantity is a positive
    integer; the product name is kept unchecked.  A refused order fails with a
    [ValueError] whose text names the first check that fails, in the order
    product id, quantity, address.  [True] is an [int]: it is accepted as a
    quantity. *)
Theorem Order_construction (product_id quantity delivery_address product_name : pyval) :
  match Order.new product_id quantity delivery_address product_name with
  | Ok order =>
      product_id = VStr (Order.product_id order) /\ nonempty_str product_id
      /\ quantity = of_int (Order.quantity order) /\ positive_int quantity
      /\ delivery_address = VStr (Order.delivery_address order)
      /\ nonempty_str delivery_address
      /\ Order.product_name order = product_name
  | Raise e =>
      class_of e = ValueError
      /\ ((str_of e = "Product ID must be a non-empty string" /\ ~ nonempty_str product_id)
          \/ (str_of e = "Quantity must be a positive integer"
              /\ nonempty_str product_id /\ ~ positive_int quantity)
          \/ (str_of e = "Delivery address must be a non-empty string"
              /\ nonempty_str product_id /\ positive_int quantity
              /\ ~ nonempty_str delivery_address))
  end
  /\ (forall pid address,
         pid <> "" -> address <> "" ->
         Order.new (VStr pid) (VBool true) (VStr address) product_name
         = Ok (Order.mk pid (IBool true) address product_name)).
Proof.
  split.
  - destruct (Order.new product_id quantity delivery_address product_name) as [order|e] eqn:Hnew.
    + apply Order_new_Ok in Hnew as (Hid & Hfull & Hq & Hpos & Haddr & Hthere & Hname).
      unfold nonempty_str, positive_int. split; [exact Hid|]. split; [eauto|].
      split; [exact Hq|]. split; [eauto|]. split; [exact Haddr|]. split; [eauto|].
      symmetry. exact Hname.
    + apply Order_new_Raise in Hnew as [Hclass Hpost]. split; [exact Hclass|].
      revert Hpost. unfold Order.__post_init__, raise, nonempty_str, positive_int.
      destruct (negb (truthy product_id) || negb (isinstance_str product_id)) eqn:Hid.
      { intros [= <-]. left. split; [reflexivity|].
        intros Hgood. apply str_check_passes in Hgood. congruence. }
      apply str_check_passes in Hid.
      destruct (negb (isinstance_int quantity) || le0 quantity) eqn:Hq.
      { intros [= <-]. right. left. split; [reflexivity|]. split; [exact Hid|].
        intros Hgood. apply positive_int_check_passes in Hgood. congruence. }
      apply positive_int_check_passes in Hq.
      destruct (negb (truthy delivery_address) || negb (isinstance_str delivery_address))
        eqn:Haddr; [|discriminate].
      intros [= <-]. right. right. split; [reflexivity|]. split; [exact Hid|].
      split; [exact Hq|].
      intros Hgood. apply str_check_passes in Hgood. congruence.
  - intros pid address Hpid Haddress.
    apply (Order_new_Ok (VStr pid) (VBool true) (VStr address) product_name
             (Order.mk pid (IBool true) address product_name)).
    simpl. split; [reflexivity|]. split; [exact Hpid|]. split; [reflexivity|].
    split; [lia|]. split; [reflexivity|]. split; [exact Haddress | reflexivity].
Qed.


(** A digit of a hexadecimal number as [uuid4().hex] writes it, and as
    [upper] leaves it. *)
Definition is_hex (c : ascii) : bool :=
  let n := N_of_ascii c in
  (((48 <=? n) && (n <=? 57)) || ((97 <=? n) && (n <=? 102)))%N.

Definition is_upper_hex (c : ascii) : bool :=
  let n := N_of_ascii c in
  (((48 <=? n) && (n <=? 57)) || ((65 <=? n) && (n <=? 70)))%N.

Lemma upper_char_hex (c : ascii) : is_hex c = true -> is_upper_hex (upper_char c) = true.
Proof.
  destruct c as [[] [] [] [] [] [] [] []]; vm_compute; intros Hc; trivial; discriminate Hc.
Qed.

Lemma upper_hex (s : string) :
  all_chars is_hex s = true -> all_chars is_upper_hex (upper s) = true.
Proof.
  induction s as [|c r IH]; simpl; trivial.
  intros Hs. apply andb_true_iff in Hs as [Hc Hr].
  rewrite (upper_char_hex c Hc). apply IH, Hr.
Qed.

Lemma all_chars_take (p : ascii -> bool) (n : nat) (s : string) :
  all_chars p s = true -> all_chars p (take n s) = true.
Proof.
  revert s. induction n as [|n IH]; intros [|c r]; simpl; trivial.
  intros Hs. apply andb_true_iff in Hs as [Hc Hr]. rewrite Hc. apply IH, Hr.
Qed.

Lemma upper_length (s : string) : len (upper s) = len s.
Proof.
  unfold len, upper. induction s as [|c r IH]; simpl; [trivial | rewrite IH; reflexivity].
Qed.

Lemma lower_upper_hex (s : string) : all_chars is_hex s = true -> lower (upper s) = s.
Proof.
  unfold lower, upper. induction s as [|c r IH]; simpl; trivial.
  intros Hs. apply andb_true_iff in Hs as [Hc Hr]. rewrite (IH Hr). f_equal.
  revert Hc. clear. destruct c as [[] [] [] [] [] [] [] []]; vm_compute;
    intros Hc; trivial; discriminate Hc.
Qed.

(** X23.  The id that [from_order] generates for an order that comes
    without one: [ORD] and six digits, the first six of the UUID in upper
    case, so nine characters of 0-9 and A-F after the letters. *)
Theorem generated_order_id_format (clock : Clock) (order : Order.t) (product : Product.t)
    (x : StoredOrder.t) :
  len (uuid4_hex clock) = 32%nat ->
  all_chars is_hex (uuid4_hex clock) = true ->
  StoredOrder.from_order clock order product None = Ok x ->
  exists six,
    StoredOrder.order_id x = "ORD" ++ six
    /\ len six = 6%nat
    /\ all_chars is_upper_hex six = true
    /\ prefix (lower six) (uuid4_hex clock) = true.
Proof.
  intros Hlen Hhex Hnew. apply from_order_Ok in Hnew as (total & _ & Hnew).
  apply StoredOrder_new_Ok in Hnew as (Hid & _). injection Hid as Hid.
  exists (upper (take 6 (uuid4_hex clock))).
  split; [symmetry; exact Hid|].
  split; [rewrite upper_length, take_length, Hlen; reflexivity|].
  split; [apply upper_hex, all_chars_take, Hhex|].
  rewrite lower_upper_hex by (apply all_chars_take, Hhex). apply take_prefix.
Qed.

End MoreDataModelFacts.

(* ================================================================== *)
(** * Runs on a small catalog                                           *)
(* ================================================================== *)

(** The theorems at work, and the inputs on which the code departs from what
    was claimed of it, over [IntegralFloat]. *)

Section Runs.
#[local] Existing Instance IntegralFloat.ops.

(** The floats of the runs: an integer value, and NaN. *)
Definition fl (n : Z) : float := IntegralFloat.Num n.

Definition chair : Product.t :=
  Product.mk "P001" "Oak Chair" "A chair of oak" (NFloat (fl 25)) (IInt 5) "Furniture".

Definition desk : Product.t :=
  Product.mk "P002" "Desk" "A writing desk" (NFloat (fl 100)) (IInt 0) "Furniture".

Definition processor : OrderProcessor.t :=
  OrderProcessor.mk [("P001", chair); ("P002", desk)]
    [["order_id"; "product_id"; "product_name"; "quantity"; "delivery_address";
      "order_date"; "total_price"]].

Definition today : OrderProcessor.Env :=
  OrderProcessor.mk_env (mk_clock "0a1b2c3d4e5f60718293a4b5c6d7e8f9" "2024-05-01") true.

(** *** C1 *)



(** *** C3 *)

Lemma Product_construction_witness :
  exists p,
    Product.new (VStr "P001") (VStr "Oak Chair") "A chair of oak" (VFloat (fl 25)) (VInt 5)
      (VStr "Furniture") = Ok p
    /\ Product.description p = "A chair of oak"
    /\ of_int (Product.stock_quantity p) = VInt 5
    /\ forall n, Product.is_in_stock p n = true
                 <-> int_val (Product.stock_quantity p) >= int_val n.
Proof.
  apply (proj1 (Product_construction (VStr "P001") (VStr "Oak Chair") "A chair of oak"
                  (VFloat (fl 25)) (VInt 5) (VStr "Furniture"))).
  repeat split.
  - exists "P001". split; [reflexivity | discriminate].
  - exists "Oak Chair". split; [reflexivity | discriminate].
  - exists (NFloat (fl 25)). split; reflexivity.
  - exists (IInt 5). split; [reflexivity | discriminate].
  - exists "Furniture". split; [reflexivity | discriminate].
Defined.

(** An empty description violates what was claimed of descriptions, and the
    product is constructed all the same. *)
Lemma Product_new_accepts_empty_description :
  Product.new (VStr "P001") (VStr "Oak Chair") "" (VFloat (fl 25)) (VInt 5) (VStr "Furniture")
  = Ok (Product.mk "P001" "Oak Chair" "" (NFloat (fl 25)) (IInt 5) "Furniture").
Proof. reflexivity. Qed.

(** *** C4 *)

Definition stored_chairs : StoredOrder.t :=
  StoredOrder.mk "ORD0A1B2C" "P001" "Oak Chair" (IInt 3) "12 Main St" "2024-05-01"
    (NFloat (fl 75)).



(** *** C10 *)

Lemma from_order_stores_supplied_name_witness :
  StoredOrder.product_name
    (StoredOrder.mk "ORD0A1B2C" "P001" "oak chair" (IInt 1) "12 Main St" "2024-05-01"
       (NFloat (fl 25)))
  = "oak chair".
Proof.
  apply (proj1 from_order_stores_supplied_name
           (mk_clock "0a1b2c3d4e5f60718293a4b5c6d7e8f9" "2024-05-01")
           (Order.mk "P001" (IInt 1) "12 Main St" (VStr "oak chair")) chair None).
  - reflexivity.
  - discriminate.
  - reflexivity.
Defined.

(** An order that carries the empty string as its product name: the stored
    order holds the catalog name, not the name supplied. *)
Lemma from_order_replaces_empty_name :
  StoredOrder.from_order (mk_clock "0a1b2c3d4e5f60718293a4b5c6d7e8f9" "2024-05-01")
    (Order.mk "P001" (IInt 1) "12 Main St" (VStr "")) chair None
  = Ok (StoredOrder.mk "ORD0A1B2C" "P001" "Oak Chair" (IInt 1) "12 Main St" "2024-05-01"
          (NFloat (fl 25))).
Proof. reflexivity. Qed.

(** *** C5 and C6 *)

Definition config : SarvamLLMService.SarvamConfig :=
  SarvamLLMService.mk_config "key" "https://api.sarvam.ai/v1/chat/completions" "sarvam-m" 30 3.

Definition reply (status : Z) (body : res string) : res (SarvamLLMService.Response string) :=
  Ok (SarvamLLMService.mk_response status "" body).

(** A server that is rate limited twice and then answers. *)
Definition busy_server : SarvamLLMService.World unit string :=
  SarvamLLMService.mk_world
    (fun k _ => match k with
                | O | S O => reply 429 (Ok "")
                | _ => reply 200 (Ok "answer")
                end)
    0 [].

Lemma make_request_with_retry_protocol_witness :
  SarvamLLMService._make_request_with_retry config tt busy_server
  = (Ok "answer",
     SarvamLLMService.mk_world (SarvamLLMService.server busy_server)
       (SarvamLLMService.posts busy_server + 3)
       (SarvamLLMService.slept busy_server ++ [1; 2])).
Proof.
  apply (proj2 (proj2 (proj2 (proj2 make_request_with_retry_protocol))) config tt busy_server
           (SarvamLLMService.mk_response 429 "" (Ok ""))
           (SarvamLLMService.mk_response 429 "" (Ok ""))
           (SarvamLLMService.mk_response 200 "" (Ok "answer")) "answer");
    reflexivity || (simpl; lia).
Defined.

(** A server whose first answer has status 200 and a body that is no JSON,
    as [requests] reports it; its second answer is well formed. *)
Definition garbled_once : SarvamLLMService.World unit string :=
  SarvamLLMService.mk_world
    (fun k _ => match k with
                | O => reply 200 (Raise (mk_exn Requests_JSONDecodeError
                                           "Expecting value: line 1 column 1 (char 0)"))
                | _ => reply 200 (Ok "answer")
                end)
    0 [].

(** C6, on the code: the malformed body does not end the call.  The clause
    for [RequestException] catches the error before the clause meant for JSON
    errors is reached; the client sleeps a second, posts again and returns the
    second body. *)
Lemma malformed_body_is_retried :
  SarvamLLMService._make_request_with_retry config tt garbled_once
  = (Ok "answer",
     SarvamLLMService.mk_world (SarvamLLMService.server garbled_once) 2 [1]).
Proof. reflexivity. Qed.

(** *** C7 *)

(** C7, on the code: the tool hands the whole dictionary of the order
    processor to the reasoning loop, not the message in it. *)
Lemma order_tool_returns_the_dictionary :
  exists result,
    fst (LlamaIndexAgent.process_order
           (fun self => OrderProcessor.process_order self today) processor
           (VStr "P001") (VInt 3) (VStr "12 Main St") VNone)
    = Ok (LlamaIndexAgent.Dictionary result)
    /\ OrderProcessor.message result = "Order ORD0A1B2C placed successfully for Oak Chair"
    /\ OrderProcessor.success result = true
    /\ OrderProcessor.order_id result = Some "ORD0A1B2C".
Proof. eexists. repeat split. Qed.

(** *** C8 *)

Definition engine : RAGEngine.t := RAGEngine.mk [desk; chair].



(** *** C9 *)

Definition assistant : ChatInterface.Assistant :=
  ChatInterface.mk_assistant (Ok tt)
    (fun user_input => Ok (ChatInterface.mk_response ("You said: " ++ user_input) None true None)).

Lemma respond_route_checks_password_witness :
  ChatInterface.response_endpoint assistant (ChatInterface.mk_input "letmein" "any chairs?")
  = (Ok (ChatInterface.SetOf ["result: Incorrect Password"]), []).
Proof.
  apply (proj1 respond_route_checks_password assistant
           (ChatInterface.mk_input "letmein" "any chairs?")).
  discriminate.
Defined.

End Runs.

(* ================================================================== *)
(** * More runs                                                         *)
(* ================================================================== *)

Section MoreRuns.
#[local] Existing Instance IntegralFloat.ops.
Import OrderProcessorAccessors.

(** *** Orders in a row *)

(** Three chairs, then three more: the second call finds two left. *)
Definition two_orders : list Call :=
  [mk_call today (VStr "P001") (VInt 3) (VStr "12 Main St") VNone;
   mk_call today (VStr "P001") (VInt 3) (VStr "7 Side Rd") VNone].

Lemma process_orders_conserve_stock_witness :
  exists p',
    get (OrderProcessor.products (snd (process_orders processor two_orders))) "P001" = Some p'
    /\ same_article chair p'
    /\ int_val (Product.stock_quantity p')
       = int_val (Product.stock_quantity chair)
         - units_sold "P001" two_orders (fst (process_orders processor two_orders))
    /\ 0 <= units_sold "P001" two_orders (fst (process_orders processor two_orders))
    /\ (0 <= int_val (Product.stock_quantity chair) -> 0 <= int_val (Product.stock_quantity p')).
Proof.
  apply (process_orders_conserve_stock two_orders processor "P001" chair).
  reflexivity.
Defined.

(** All five chairs in one order. *)
Definition all_chairs : res OrderProcessor.Result * OrderProcessor.t :=
  OrderProcessor.process_order processor today (VStr "P001") (of_int (IInt 5))
    (VStr "12 Main St") VNone.

Definition all_chairs_result : OrderProcessor.Result :=
  match fst all_chairs with
  | Ok result => result
  | Raise e => OrderProcessor.failure (str_of e)
  end.

Lemma get_in_stock_products_after_order_witness :
  ((exists p', In p' (get_in_stock_products (snd all_chairs))
               /\ Product.product_id p' = "P001")
   <-> int_val (IInt 5) < int_val (Product.stock_quantity chair))
  /\ (forall p', Product.product_id p' <> "P001" ->
        (In p' (get_in_stock_products (snd all_chairs))
         <-> In p' (get_in_stock_products processor))).
Proof.
  apply (get_in_stock_products_after_order processor today "P001" (IInt 5)
           (VStr "12 Main St") VNone chair all_chairs_result (snd all_chairs)).
  - split.
    + simpl. repeat constructor; simpl; intuition discriminate.
    + intros k p [[= <- <-] | [[= <- <-] | []]]; reflexivity.
  - reflexivity.
  - reflexivity.
  - reflexivity.
Defined.

(** *** The retry loop *)

(** A server that is never available. *)
Definition down_server : SarvamLLMService.World unit string :=
  SarvamLLMService.mk_world (fun _ _ => reply 503 (Ok "")) 0 [].

Lemma make_request_with_retry_total_sleep_witness :
  exists pauses,
    SarvamLLMService.slept
      (snd (SarvamLLMService._make_request_with_retry config tt down_server))
    = (SarvamLLMService.slept down_server ++ pauses)%list
    /\ 0 <= total pauses <= 2 ^ SarvamLLMService.max_retries config - 1.
Proof.
  apply (make_request_with_retry_total_sleep config tt down_server). simpl. lia.
Defined.

Lemma make_request_with_retry_gives_up_witness :
  exists e,
    SarvamLLMService._make_request_with_retry config tt down_server
    = (Raise e,
       SarvamLLMService.mk_world (SarvamLLMService.server down_server)
         (SarvamLLMService.posts down_server
          + Z.to_nat (SarvamLLMService.max_retries config) + 1)
         (SarvamLLMService.slept down_server
          ++ backoff (Z.to_nat (SarvamLLMService.max_retries config)))).
Proof.
  apply (make_request_with_retry_gives_up config tt down_server).
  - simpl. lia.
  - intros k. simpl. right. lia.
Defined.

Lemma make_request_with_retry_recovers_witness :
  SarvamLLMService._make_request_with_retry config tt busy_server
  = (Ok "answer",
     SarvamLLMService.mk_world (SarvamLLMService.server busy_server)
       (SarvamLLMService.posts busy_server + 2 + 1)
       (SarvamLLMService.slept busy_server ++ backoff 2)).
Proof.
  apply (make_request_with_retry_recovers config tt busy_server 2
           (SarvamLLMService.mk_response 200 "" (Ok "answer")) "answer").
  - simpl. lia.
  - intros [|[|i]] Hi; simpl; [left; reflexivity | left; reflexivity | lia].
  - reflexivity.
  - reflexivity.
  - reflexivity.
Defined.

(** *** The configuration *)



(** *** The route *)

(** An assistant whose components do not come up. *)
Definition broken_assistant : ChatInterface.Assistant :=
  ChatInterface.mk_assistant
    (raise Exception "Chat interface initialization failed: no catalog")
    (fun _ => raise Exception "unreachable").

Lemma respond_route_failures_witness :
  ChatInterface.response_endpoint broken_assistant
    (ChatInterface.mk_input "abcd1234" "any chairs?")
  = (raise Exception "Chat interface initialization failed: no catalog",
     [ChatInterface.Constructed]).
Proof.
  apply (respond_route_failures broken_assistant
           (ChatInterface.mk_input "abcd1234" "any chairs?")).
  reflexivity.
Defined.

(** *** The order id *)

Lemma generated_order_id_format_witness :
  exists six,
    StoredOrder.order_id stored_chairs = "ORD" ++ six
    /\ len six = 6%nat
    /\ all_chars is_upper_hex six = true
    /\ prefix (lower six) (uuid4_hex (OrderProcessor.clock today)) = true.
Proof.
  apply (generated_order_id_format (OrderProcessor.clock today)
           (Order.mk "P001" (IInt 3) "12 Main St" VNone) chair stored_chairs).
  - reflexivity.
  - reflexivity.
  - reflexivity.
Defined.

End MoreRuns.
